(** * E_Commerce_API: the request handlers of [app.py]

    A shallow embedding of the Flask application: the three mapped tables
    (lines 28-64), the marshmallow schemas (lines 68-103) and the ten
    request handlers (lines 109-247), over an explicit model of the
    committed database state.

    The handlers call into libraries (marshmallow, marshmallow-sqlalchemy,
    flask-marshmallow, SQLAlchemy over SQLite, Flask).  Their behaviour is
    modelled at the level the handlers observe it; each definition says
    which library rule it stands for. *)

From Stdlib Require Import ZArith List String Ascii Bool Lia Floats DecimalString.
Import ListNotations.
Set Warnings "-inexact-float,-register-all".
Local Open Scope string_scope.
Local Open Scope Z_scope.
Local Open Scope bool_scope.

(** ** Python values *)

(** The value of [request.json]: what [json.loads] builds.  An int is
    unbounded, a float is a binary64 (and may be nan or an infinity, which
    [json.loads] accepts), a str is the sequence of its characters, a dict
    is kept as its list of items; a key is looked up from the front of the
    list. *)
Inductive json : Type :=
| JNull
| JBool (b : bool)
| JInt (n : Z)
| JFloat (x : float)
| JStr (s : string)
| JList (l : list json)
| JDict (d : list (string * json)).

(** [d.get(key, missing)] *)
Fixpoint dict_get (d : list (string * json)) (key : string) : option json :=
  match d with
  | [] => None
  | (k, v) :: rest => if String.eqb k key then Some v else dict_get rest key
  end.

Definition dict_keys (d : list (string * json)) : list string := map fst d.

(** The value a payload carries for a field, if it is a dict that has it. *)
Definition payload_get (payload : json) (key : string) : option json :=
  match payload with
  | JDict d => dict_get d key
  | _ => None
  end.

Fixpoint mem_str (x : string) (l : list string) : bool :=
  match l with
  | [] => false
  | y :: rest => String.eqb x y || mem_str x rest
  end.

(** [c in s] for a one-character [c] *)
Fixpoint str_contains (c : ascii) (s : string) : bool :=
  match s with
  | EmptyString => false
  | String a rest => Ascii.eqb a c || str_contains c rest
  end.

(** [float(n)] for an int: the nearest binary64, ties to even;
    [None] stands for OverflowError. *)
Definition float_of_int (n : Z) : option float :=
  let x := SF2Prim (binary_normalize 53 1024 n 0 false) in
  if PrimFloat.is_infinity x then None else Some x.

(** [int(x)] for a float: truncation towards zero; [None] for nan
    (ValueError) and the infinities (OverflowError). *)
Definition int_of_float (x : float) : option Z :=
  match Prim2SF x with
  | S754_zero _ => Some 0
  | S754_finite sg m e =>
      let a := if 0 <=? e then Zpos m * 2 ^ e else Zpos m / 2 ^ (- e) in
      Some (if sg then - a else a)
  | S754_infinity _ | S754_nan => None
  end.

(** [math.isnan(num) or num == float("inf") or num == float("-inf")] *)
Definition is_special (x : float) : bool :=
  PrimFloat.is_nan x || PrimFloat.is_infinity x.

(** What the handlers use of the libraries without this repository fixing
    it: the regular expressions of marshmallow's [validate.Email], and
    Python's parsing of a string by [int(s)] and [float(s)] ([None] for
    ValueError). *)
Class Library : Type := {
  email_regex_ok : string -> bool;
  int_of_str : string -> option Z;
  float_of_str : string -> option float
}.

(** ** Exceptions and responses *)

(** marshmallow's error messages, by their key in [default_error_messages]
    or their validator. *)
Inductive message : Type :=
| Msg_required          (* "Missing data for required field." *)
| Msg_null              (* "Field may not be null." *)
| Msg_invalid_string    (* "Not a valid string." *)
| Msg_invalid_email     (* "Not a valid email address." *)
| Msg_invalid_integer   (* "Not a valid integer." *)
| Msg_invalid_number    (* "Not a valid number." *)
| Msg_too_large         (* "Number too large." *)
| Msg_special           (* "Special numeric values (nan or infinity) are not permitted." *)
| Msg_length (min max : nat) (* "Length must be between {min} and {max}." *)
| Msg_range_min (min : float) (* "Must be greater than or equal to {min}." *)
| Msg_unknown           (* "Unknown field." *)
| Msg_input_type.       (* "Invalid input type." *)

(** [ValidationError.messages]: field name -> messages *)
Definition messages : Type := list (string * list message).

Inductive exn : Type :=
| ValidationError (e : messages)
| IntegrityError
| TypeError
| KeyError
| AttributeError
| OperationalError
| OverflowError.

Inductive result (A : Type) : Type :=
| Ok (a : A)
| Raise (e : exn).
Arguments Ok {A} a.
Arguments Raise {A} e.

Definition bind {A B : Type} (m : result A) (k : A -> result B) : result B :=
  match m with
  | Ok a => k a
  | Raise e => Raise e
  end.

Declare Scope py_scope.
Delimit Scope py_scope with py.
Notation "x <- m ;; k" := (bind m (fun x => k))
  (at level 100, m at next level, right associativity) : py_scope.

(** A response body: [jsonify] of a value, or of [e.messages]. *)
Inductive body : Type :=
| Json (j : json)
| Messages (e : messages).

Record response : Type := { resp_body : body; status : Z }.

(** What a view function does: it returns, or an exception leaves it. *)
Inductive outcome : Type :=
| Returned (r : response)
| Unhandled (e : exn).

(** Flask answers an exception that leaves the view function with
    500 Internal Server Error. *)
Definition http_status (o : outcome) : Z :=
  match o with
  | Returned r => status r
  | Unhandled _ => 500
  end.

(** [jsonify({"message": text})] *)
Definition message_body (text : string) : body :=
  Json (JDict [("message", JStr text)]).

(** ** marshmallow: fields and validators (lines 73-75, 84-85, 93-94) *)

(** [fields.String(validate=validate.Length(min, max))]: the value must be
    a str, and [len(value)] must lie in [min, max]. *)
Definition String_field (min max : nat) (value : json) : list message + string :=
  match value with
  | JStr s =>
      if (String.length s <? min)%nat || (max <? String.length s)%nat
      then inl [Msg_length min max]
      else inr s
  | _ => inl [Msg_invalid_string]
  end.

(** [validate.Email()]: [if not value or "@" not in value: raise], then the
    regular expressions on the two parts. *)
Definition Email_validator `{Library} (value : string) : bool :=
  negb (String.eqb value "") && str_contains "@"%char value && email_regex_ok value.

(** [fields.Email()]: a String field whose "invalid" message is the
    email one, with [validate.Email()] as its validator. *)
Definition Email_field `{Library} (value : json) : list message + string :=
  match value with
  | JStr s => if Email_validator s then inr s else inl [Msg_invalid_email]
  | _ => inl [Msg_invalid_email]
  end.

(** [fields.Integer()], not strict: bool is refused, then [int(value)]. *)
Definition Integer_field `{Library} (value : json) : list message + Z :=
  match value with
  | JInt n => inr n
  | JFloat x =>
      match int_of_float x with
      | Some n => inr n
      | None => inl [if PrimFloat.is_nan x then Msg_invalid_integer else Msg_too_large]
      end
  | JStr s =>
      match int_of_str s with
      | Some n => inr n
      | None => inl [Msg_invalid_integer]
      end
  | JNull => inl [Msg_null]
  | JBool _ | JList _ | JDict _ => inl [Msg_invalid_integer]
  end.

(** [validate.Range(min=min)]: [if value < self.min: raise]. *)
Definition Range_validator (min : float) (value : float) : bool :=
  negb (PrimFloat.ltb value min).

(** [fields.Float(validate=validate.Range(min=min))]: bool is refused, then
    [float(value)], then nan and the infinities are refused
    ([allow_nan=False]), then the validator runs. *)
Definition Float_field `{Library} (min : float) (value : json) : list message + float :=
  let validated (num : float) : list message + float :=
    if is_special num then inl [Msg_special]
    else if Range_validator min num then inr num
    else inl [Msg_range_min min] in
  match value with
  | JInt n =>
      match float_of_int n with
      | Some x => validated x
      | None => inl [Msg_too_large]
      end
  | JFloat x => validated x
  | JStr s =>
      match float_of_str s with
      | Some x => validated x
      | None => inl [Msg_invalid_number]
      end
  | JNull => inl [Msg_null]
  | JBool _ | JList _ | JDict _ => inl [Msg_invalid_number]
  end.

(** [Field.deserialize]: a missing value is an error when the field is
    required and the load is not partial, and is skipped otherwise (no
    field here has a [load_default]); None is refused ([allow_none] is
    off for these non-nullable columns); else the field's own rule. *)
Definition deserialize {T : Type} (required partial : bool)
    (field : json -> list message + T) (raw : option json) : list message + option T :=
  match raw with
  | None => if required && negb partial then inl [Msg_required] else inr None
  | Some JNull => inl [Msg_null]
  | Some v =>
      match field v with
      | inl e => inl e
      | inr t => inr (Some t)
      end
  end.

Definition field_errors {T : Type} (key : string) (r : list message + option T) : messages :=
  match r with
  | inl e => [(key, e)]
  | inr _ => []
  end.

Definition field_value {T : Type} (r : list message + option T) : option T :=
  match r with
  | inl _ => None
  | inr v => v
  end.

(** [unknown = RAISE], marshmallow's default: every key of the payload that
    is no field of the schema is an error. *)
Definition unknown_errors (fields : list string) (d : list (string * json)) : messages :=
  map (fun k => (k, [Msg_unknown]))
      (filter (fun k => negb (mem_str k fields)) (dict_keys d)).

(** ** Schemas *)

(** What [Schema.load] hands back: the dict of deserialized fields, or,
    under [load_instance = True], the model object that marshmallow-sqlalchemy's
    [make_instance] builds by calling the model class on that dict. *)
Inductive loaded (D : Type) : Type :=
| AsDict (d : D)
| AsInstance (obj : D).
Arguments AsDict {D} d.
Arguments AsInstance {D} obj.

Record Schema (D : Type) : Type := {
  deserialize_fields : bool -> json -> messages + D;
  primary_key : D -> option Z;
  load_instance : bool
}.
Arguments deserialize_fields {D} _ _ _.
Arguments primary_key {D} _ _.
Arguments load_instance {D} _.

(** marshmallow-sqlalchemy's [post_load] hook [make_instance], reached when
    [load_instance] is set.  Its [get_instance] queries the schema's session
    when the data holds the primary key; that session is flask-marshmallow's
    placeholder [DummySession], because [Marshmallow(app)] (line 25) runs
    before [db.init_app(app)] (line 26), and a [DummySession] has no
    [query].  Otherwise the model class is called with the data as its
    keyword arguments, and the new object is what [load] returns. *)
Definition make_instance {D : Type} (schema : Schema D) (d : D) : result (loaded D) :=
  match primary_key schema d with
  | Some _ => Raise AttributeError
  | None => Ok (AsInstance d)
  end.

(** [schema.load(data, partial=partial)]: all field errors are collected and
    raised as one ValidationError; the [post_load] hook runs on error-free
    data only, and without [load_instance] it returns the data as they
    are. *)
Definition load {D : Type} (schema : Schema D) (data : json) (partial : bool)
    : result (loaded D) :=
  match deserialize_fields schema partial data with
  | inl errors => Raise (ValidationError errors)
  | inr d => if load_instance schema then make_instance schema d else Ok (AsDict d)
  end.

(** The deserialized fields behind what [load] returned. *)
Definition loaded_data {D : Type} (x : loaded D) : D :=
  match x with
  | AsDict d => d
  | AsInstance obj => obj
  end.

(** [x[key]]: a dict is subscriptable, a model object is not. *)
Definition getitem {D T : Type} (x : loaded D) (key : D -> option T) : result T :=
  match x with
  | AsDict d =>
      match key d with
      | Some v => Ok v
      | None => Raise KeyError
      end
  | AsInstance _ => Raise TypeError
  end.

(** [key in x]: a dict is a container, a model object is not. *)
Definition contains {D T : Type} (key : D -> option T) (x : loaded D) : result bool :=
  match x with
  | AsDict d =>
      match key d with
      | Some _ => Ok true
      | None => Ok false
      end
  | AsInstance _ => Raise TypeError
  end.

(** [class UserSchema] (lines 68-75): the auto-generated [id] field of the
    primary key column, which is not required, and the three declared
    fields. *)
Module UserSchema.
Record data : Type := {
  id : option Z;
  name : option string;
  address : option string;
  email : option string
}.

Definition fields : list string := ["id"; "name"; "address"; "email"].

(** [d.get(field)] on the deserialized data *)
Definition value (d : data) (field : string) : option json :=
  if String.eqb field "id" then option_map JInt (id d)
  else if String.eqb field "name" then option_map JStr (name d)
  else if String.eqb field "address" then option_map JStr (address d)
  else if String.eqb field "email" then option_map JStr (email d)
  else None.

Definition _deserialize `{Library} (partial : bool) (payload : json)
    : messages + data :=
  match payload with
  | JDict d =>
      let r_id := deserialize false partial Integer_field (dict_get d "id") in
      let r_name := deserialize true partial (String_field 1 80) (dict_get d "name") in
      let r_address := deserialize true partial (String_field 1 255) (dict_get d "address") in
      let r_email := deserialize true partial Email_field (dict_get d "email") in
      match (field_errors "id" r_id ++ field_errors "name" r_name
             ++ field_errors "address" r_address ++ field_errors "email" r_email
             ++ unknown_errors fields d)%list with
      | [] => inr {| id := field_value r_id; name := field_value r_name;
                     address := field_value r_address; email := field_value r_email |}
      | errors => inl errors
      end
  | _ => inl [("_schema", [Msg_input_type])]
  end.

(** [class Meta: model = User; load_instance = True] *)
Definition schema `{Library} : Schema data :=
  {| deserialize_fields := _deserialize;
     primary_key := id;
     load_instance := true |}.
End UserSchema.

(** [class ProductSchema] (lines 88-94) *)
Module ProductSchema.
Record data : Type := {
  id : option Z;
  name : option string;
  price : option float
}.

Definition fields : list string := ["id"; "name"; "price"].

Definition _deserialize `{Library} (partial : bool) (payload : json)
    : messages + data :=
  match payload with
  | JDict d =>
      let r_id := deserialize false partial Integer_field (dict_get d "id") in
      let r_name := deserialize true partial (String_field 1 120) (dict_get d "name") in
      let r_price := deserialize true partial (Float_field 0.01) (dict_get d "price") in
      match (field_errors "id" r_id ++ field_errors "name" r_name
             ++ field_errors "price" r_price ++ unknown_errors fields d)%list with
      | [] => inr {| id := field_value r_id; name := field_value r_name;
                     price := field_value r_price |}
      | errors => inl errors
      end
  | _ => inl [("_schema", [Msg_input_type])]
  end.

(** [class Meta: model = Product; load_instance = True] *)
Definition schema `{Library} : Schema data :=
  {| deserialize_fields := _deserialize;
     primary_key := id;
     load_instance := true |}.
End ProductSchema.

(** [user_schema = UserSchema()], [product_schema = ProductSchema()]
    (lines 98, 102) *)
Definition user_schema `{Library} : Schema UserSchema.data := UserSchema.schema.
Definition product_schema `{Library} : Schema ProductSchema.data := ProductSchema.schema.

(** ** The mapped tables (lines 28-64) *)

Module User.
Record t : Type := { id : Z; name : string; address : string; email : string }.
Definition set_name (v : string) (u : t) : t :=
  {| id := id u; name := v; address := address u; email := email u |}.
Definition set_address (v : string) (u : t) : t :=
  {| id := id u; name := name u; address := v; email := email u |}.
Definition set_email (v : string) (u : t) : t :=
  {| id := id u; name := name u; address := address u; email := v |}.
End User.

Module Order.
(** [order_date] is a timestamp set by the database. *)
Record t : Type := { id : Z; order_date : Z; user_id : Z }.
End Order.

Module Product.
Record t : Type := { id : Z; name : string; price : float }.
Definition set_name (v : string) (p : t) : t :=
  {| id := id p; name := v; price := price p |}.
Definition set_price (v : float) (p : t) : t :=
  {| id := id p; name := name p; price := v |}.
End Product.

(** An INTEGER of SQLite is a signed 64-bit value. *)
Definition in_int64 (n : Z) : bool := (- 2 ^ 63 <=? n) && (n <? 2 ^ 63).

(** Whether the integer columns of the four tables (lines 33-34, 40, 50, 52,
    60) hold values that SQLite can keep. *)
Definition store_fits (us : list User.t) (os : list Order.t) (ps : list Product.t)
    (links : list (Z * Z)) : bool :=
  forallb (fun u => in_int64 (User.id u)) us
  && forallb (fun o => in_int64 (Order.id o) && in_int64 (Order.user_id o)) os
  && forallb (fun p => in_int64 (Product.id p)) ps
  && forallb (fun link => in_int64 (fst link) && in_int64 (snd link)) links.

(** The committed state of the database: the rows of [users], [orders],
    [products] and the pairs (order_id, product_id) of [order_product],
    their integers within the range of the column type. *)
Record Store : Type := {
  users : list User.t;
  orders : list Order.t;
  products : list Product.t;
  order_product : list (Z * Z);
  store_ok : store_fits users orders products order_product = true
}.

(** The tables as [db.create_all()] makes them (line 256). *)
Definition empty_store : Store :=
  {| users := []; orders := []; products := []; order_product := [];
     store_ok := eq_refl |}.

Definition checked (b : bool) : option (b = true) :=
  match b as b0 return option (b0 = true) with
  | true => Some eq_refl
  | false => None
  end.

(** The store with another [users] table.  The writes of the handlers keep
    every integer in range ([with_users_fits]); for rows that SQLite could
    not keep the store stays as it is. *)
Definition with_users (s : Store) (l : list User.t) : Store :=
  match checked (store_fits l (orders s) (products s) (order_product s)) with
  | Some ok =>
      {| users := l; orders := orders s; products := products s;
         order_product := order_product s; store_ok := ok |}
  | None => s
  end.

(** The store with other [products] and [order_product] tables. *)
Definition with_products (s : Store) (l : list Product.t) (links : list (Z * Z)) : Store :=
  match checked (store_fits (users s) (orders s) l links) with
  | Some ok =>
      {| users := users s; orders := orders s; products := l;
         order_product := links; store_ok := ok |}
  | None => s
  end.

(** ** The session over SQLite *)

(** The row of a table with a given primary key. *)
Definition session_get {R : Type} (key : R -> Z) (table : list R) (id : Z) : option R :=
  find (fun r => key r =? id) table.

(** [db.session.get(Model, id)]: the row with that primary key, or None.
    The id is bound as a parameter of the SELECT, and the sqlite3 driver
    raises OverflowError for an int outside the signed 64-bit range, which
    the [<int:id>] converter of the routes lets through. *)
Definition db_session_get {R : Type} (key : R -> Z) (table : list R) (id : Z)
    : result (option R) :=
  if in_int64 id then Ok (session_get key table id) else Raise OverflowError.

(** The rowid SQLite gives a row inserted without its INTEGER PRIMARY KEY:
    1 in an empty table, else one more than the largest rowid in use.  When
    the largest is 2^63-1 SQLite draws unused rowids at random; that draw is
    not modelled and the insert is taken to fail. *)
Definition next_rowid (ids : list Z) : result Z :=
  match ids with
  | [] => Ok 1
  | i :: rest =>
      let largest := fold_left Z.max rest i in
      if largest =? 2 ^ 63 - 1 then Raise OperationalError else Ok (largest + 1)
  end.

(** [db.session.add(User(name=.., address=.., email=..)); db.session.commit()]:
    the INSERT fails on the UNIQUE constraints of [name] and [email]
    (lines 41, 43; SQLite compares the text byte for byte). *)
Definition commit_add_user (s : Store) (name address email : string)
    : result (Store * User.t) :=
  if existsb (fun u => String.eqb (User.name u) name || String.eqb (User.email u) email)
             (users s)
  then Raise IntegrityError
  else
    (id <- next_rowid (map User.id (users s)) ;;
     let new_user := {| User.id := id; User.name := name;
                        User.address := address; User.email := email |} in
     Ok (with_users s (users s ++ [new_user])%list, new_user))%py.

(** [db.session.add(Product(name=.., price=..)); db.session.commit()]:
    [products] has no UNIQUE constraint (lines 60-62). *)
Definition commit_add_product (s : Store) (name : string) (price : float)
    : result (Store * Product.t) :=
  (id <- next_rowid (map Product.id (products s)) ;;
   let new_product := {| Product.id := id; Product.name := name;
                         Product.price := price |} in
   Ok (with_products s (products s ++ [new_product])%list (order_product s), new_product))%py.

(** [db.session.commit()] after attribute assignments on a loaded user: the
    UPDATE sets the columns whose value changed, and fails when a changed
    [name] or [email] is that of another row. *)
Definition commit_update_user (s : Store) (old new : User.t) : result Store :=
  let others := filter (fun u => negb (User.id u =? User.id old)) (users s) in
  let name_taken :=
    negb (String.eqb (User.name new) (User.name old))
    && existsb (fun u => String.eqb (User.name u) (User.name new)) others in
  let email_taken :=
    negb (String.eqb (User.email new) (User.email old))
    && existsb (fun u => String.eqb (User.email u) (User.email new)) others in
  if name_taken || email_taken then Raise IntegrityError
  else Ok (with_users s
             (map (fun u => if User.id u =? User.id old then new else u) (users s))).

(** [db.session.commit()] after attribute assignments on a loaded product. *)
Definition commit_update_product (s : Store) (old new : Product.t) : result Store :=
  Ok (with_products s
        (map (fun p => if Product.id p =? Product.id old then new else p) (products s))
        (order_product s)).

(** [db.session.delete(user); db.session.commit()]: the relationship
    [User.orders] (line 45) has no delete cascade, so SQLAlchemy first sets
    [user_id] of the user's orders to NULL, which the NOT NULL column
    (line 52) refuses. *)
Definition commit_delete_user (s : Store) (user : User.t) : result Store :=
  if existsb (fun o => Order.user_id o =? User.id user) (orders s)
  then Raise IntegrityError
  else Ok (with_users s (filter (fun u => negb (User.id u =? User.id user)) (users s))).

(** [db.session.delete(product); db.session.commit()]: SQLAlchemy removes
    the product's rows of the [secondary] table (line 64) with it. *)
Definition commit_delete_product (s : Store) (product : Product.t) : result Store :=
  Ok (with_products s
        (filter (fun p => negb (Product.id p =? Product.id product)) (products s))
        (filter (fun link => negb (snd link =? Product.id product)) (order_product s))).

(** ** Serialization *)

(** The columns of a user, as [user_schema.dump(user)] lists them. *)
Definition user_items (u : User.t) : list (string * json) :=
  [("address", JStr (User.address u)); ("email", JStr (User.email u));
   ("id", JInt (User.id u)); ("name", JStr (User.name u))].

(** [user_schema.jsonify(user)] *)
Definition dump_user (u : User.t) : json := JDict (user_items u).

(** [product_schema.jsonify(product)] *)
Definition dump_product (p : Product.t) : json :=
  JDict [("id", JInt (Product.id p)); ("name", JStr (Product.name p));
         ("price", JFloat (Product.price p))].

(** [str(n)] for an int *)
Definition str_of_int (n : Z) : string := NilZero.string_of_int (Z.to_int n).

(** [return jsonify(..), status] *)
Definition respond (b : body) (code : Z) : outcome :=
  Returned {| resp_body := b; status := code |}.

(** ** USER ROUTES (lines 109-177)

    A handler takes the committed store and the request's arguments, and
    gives the committed store after the request and what the view function
    did.  A write that is not committed is lost: [rollback()] discards it,
    and so does the removal of the session when the request ends. *)

(** GET /users *)
Definition get_users (s : Store) : Store * outcome :=
  (s, respond (Json (JList (map dump_user (users s)))) 200).

(** GET /users/<int:id> *)
Definition get_user (s : Store) (id : Z) : Store * outcome :=
  match db_session_get User.id (users s) id with
  | Raise e => (s, Unhandled e)
  | Ok None => (s, respond (message_body "User not found") 404)
  | Ok (Some user) => (s, respond (Json (dump_user user)) 200)
  end.

(** POST /users *)
Definition create_user `{Library} (s : Store) (request_json : json) : Store * outcome :=
  match (user_data <- load user_schema request_json false ;;
         name <- getitem user_data UserSchema.name ;;
         address <- getitem user_data UserSchema.address ;;
         email <- getitem user_data UserSchema.email ;;
         commit_add_user s name address email)%py with
  | Ok (s', new_user) => (s', respond (Json (dump_user new_user)) 201)
  | Raise (ValidationError e) => (s, respond (Messages e) 400)
  | Raise IntegrityError =>
      (s, respond (message_body "User with this name or email already exists") 409)
  | Raise e => (s, Unhandled e)
  end.

(** [if key in data: obj.attr = data[key]] *)
Definition assign_if_present {D T R : Type} (key : D -> option T) (data : loaded D)
    (set : T -> R -> R) (obj : R) : result R :=
  (present <- contains key data ;;
   if (present : bool) then (v <- getitem data key ;; Ok (set v obj)) else Ok obj)%py.

(** PUT /users/<int:id> *)
Definition update_user `{Library} (s : Store) (id : Z) (request_json : json)
    : Store * outcome :=
  match db_session_get User.id (users s) id with
  | Raise e => (s, Unhandled e)
  | Ok None => (s, respond (message_body "Invalid user id") 404)
  | Ok (Some user) =>
      match load user_schema request_json true with
      | Raise (ValidationError e) => (s, respond (Messages e) 400)
      | Raise e => (s, Unhandled e)
      | Ok user_data =>
          match (user1 <- assign_if_present UserSchema.name user_data User.set_name user ;;
                 user2 <- assign_if_present UserSchema.address user_data User.set_address user1 ;;
                 user3 <- assign_if_present UserSchema.email user_data User.set_email user2 ;;
                 s' <- commit_update_user s user user3 ;;
                 Ok (s', user3))%py with
          | Ok (s', user') => (s', respond (Json (dump_user user')) 200)
          | Raise e => (s, Unhandled e)
          end
      end
  end.

(** DELETE /users/<int:id> *)
Definition delete_user (s : Store) (id : Z) : Store * outcome :=
  match db_session_get User.id (users s) id with
  | Raise e => (s, Unhandled e)
  | Ok None => (s, respond (message_body "User not found") 404)
  | Ok (Some user) =>
      match commit_delete_user s user with
      | Ok s' =>
          (s', respond (message_body ("Successfully deleted user " ++ str_of_int id)) 200)
      | Raise e => (s, Unhandled e)
      end
  end.

(** ** PRODUCT ROUTES (lines 182-247) *)

(** GET /products *)
Definition get_products (s : Store) : Store * outcome :=
  (s, respond (Json (JList (map dump_product (products s)))) 200).

(** GET /products/<int:id> *)
Definition get_product (s : Store) (id : Z) : Store * outcome :=
  match db_session_get Product.id (products s) id with
  | Raise e => (s, Unhandled e)
  | Ok None => (s, respond (message_body "Product not found") 404)
  | Ok (Some product) => (s, respond (Json (dump_product product)) 200)
  end.

(** POST /products *)
Definition create_product `{Library} (s : Store) (request_json : json) : Store * outcome :=
  match (product_data <- load product_schema request_json false ;;
         name <- getitem product_data ProductSchema.name ;;
         price <- getitem product_data ProductSchema.price ;;
         commit_add_product s name price)%py with
  | Ok (s', new_product) => (s', respond (Json (dump_product new_product)) 201)
  | Raise (ValidationError e) => (s, respond (Messages e) 400)
  | Raise IntegrityError =>
      (s, respond (message_body "Product with this name already exists") 409)
  | Raise e => (s, Unhandled e)
  end.

(** PUT /products/<int:id> *)
Definition update_product `{Library} (s : Store) (id : Z) (request_json : json)
    : Store * outcome :=
  match db_session_get Product.id (products s) id with
  | Raise e => (s, Unhandled e)
  | Ok None => (s, respond (message_body "Invalid product id") 404)
  | Ok (Some product) =>
      match load product_schema request_json true with
      | Raise (ValidationError e) => (s, respond (Messages e) 400)
      | Raise e => (s, Unhandled e)
      | Ok product_data =>
          match (product1 <- assign_if_present ProductSchema.name product_data
                               Product.set_name product ;;
                 product2 <- assign_if_present ProductSchema.price product_data
                               Product.set_price product1 ;;
                 s' <- commit_update_product s product product2 ;;
                 Ok (s', product2))%py with
          | Ok (s', product') => (s', respond (Json (dump_product product')) 200)
          | Raise e => (s, Unhandled e)
          end
      end
  end.

(** DELETE /products/<int:id> *)
Definition delete_product (s : Store) (id : Z) : Store * outcome :=
  match db_session_get Product.id (products s) id with
  | Raise e => (s, Unhandled e)
  | Ok None => (s, respond (message_body "Product not found") 404)
  | Ok (Some product) =>
      match commit_delete_product s product with
      | Ok s' =>
          (s', respond (message_body ("Successfully deleted product " ++ str_of_int id)) 200)
      | Raise e => (s, Unhandled e)
      end
  end.

(** ** The API as a transition system *)

Inductive request : Type :=
| GET_users
| GET_user (id : Z)
| POST_users (request_json : json)
| PUT_user (id : Z) (request_json : json)
| DELETE_user (id : Z)
| GET_products
| GET_product (id : Z)
| POST_products (request_json : json)
| PUT_product (id : Z) (request_json : json)
| DELETE_product (id : Z).

(** The routing table ([@app.route], lines 109-238). *)
Definition handle `{Library} (s : Store) (r : request) : Store * outcome :=
  match r with
  | GET_users => get_users s
  | GET_user id => get_user s id
  | POST_users j => create_user s j
  | PUT_user id j => update_user s id j
  | DELETE_user id => delete_user s id
  | GET_products => get_products s
  | GET_product id => get_product s id
  | POST_products j => create_product s j
  | PUT_product id j => update_product s id j
  | DELETE_product id => delete_product s id
  end.

(** The stores the API's handlers reach from the empty tables. *)
Inductive reachable `{Library} : Store -> Prop :=
| reachable_init : reachable empty_store
| reachable_step (s : Store) (r : request) :
    reachable s -> reachable (fst (handle s r)).

(** A library instance to run the handlers on sample payloads: it takes
    every address holding "@" for well-formed and parses no string as a
    number. *)
Definition sample_library : Library :=
  {| email_regex_ok := fun _ => true;
     int_of_str := fun _ => None;
     float_of_str := fun _ => None |}.

Definition ann_payload : json :=
  JDict [("name", JStr "Ann"); ("address", JStr "1 Main St");
         ("email", JStr "ann@example.com")].

Definition ann : User.t :=
  {| User.id := 1; User.name := "Ann"; User.address := "1 Main St";
     User.email := "ann@example.com" |}.

Definition pen : Product.t :=
  {| Product.id := 1; Product.name := "Pen"; Product.price := 1.5 |}.

Definition pen_payload (price : json) : json :=
  JDict [("name", JStr "Pen"); ("price", price)].

Definition ann_store : Store := with_users empty_store [ann].

Definition bob : User.t :=
  {| User.id := 2; User.name := "Bob"; User.address := "2 High St";
     User.email := "bob@example.com" |}.

Definition pen_store : Store := with_products empty_store [pen] [].


(** ** OrderSchema (lines 78-85)

    No route uses [order_schema]; it is modelled as the two other schemas
    are.  The fields read on load are the auto-generated [id] and the
    declared, required [user_id]; [order_date] is [dump_only], so marshmallow
    takes it for an unknown key of a payload. *)
Module OrderSchema.
Record data : Type := {
  id : option Z;
  user_id : option Z
}.

Definition fields : list string := ["id"; "user_id"].

Definition _deserialize `{Library} (partial : bool) (payload : json)
    : messages + data :=
  match payload with
  | JDict d =>
      let r_id := deserialize false partial Integer_field (dict_get d "id") in
      let r_user_id := deserialize true partial Integer_field (dict_get d "user_id") in
      match (field_errors "id" r_id ++ field_errors "user_id" r_user_id
             ++ unknown_errors fields d)%list with
      | [] => inr {| id := field_value r_id; user_id := field_value r_user_id |}
      | errors => inl errors
      end
  | _ => inl [("_schema", [Msg_input_type])]
  end.

(** [class Meta: model = Order; load_instance = True; include_fk = True] *)
Definition schema `{Library} : Schema data :=
  {| deserialize_fields := _deserialize;
     primary_key := id;
     load_instance := true |}.
End OrderSchema.

(** [order_schema = OrderSchema()] (line 100) *)
Definition order_schema `{Library} : Schema OrderSchema.data := OrderSchema.schema.

(** ** Foreign keys (lines 33-34, 52)

    What the three ForeignKey columns ask of a store: every order is the
    order of a stored user, and every pair of [order_product] joins a stored
    order and a stored product. *)
Definition references_hold (s : Store) : Prop :=
  (forall o, In o (orders s) ->
     exists u, In u (users s) /\ User.id u = Order.user_id o)
  /\ (forall link, In link (order_product s) ->
        (exists o, In o (orders s) /\ Order.id o = fst link)
        /\ (exists p, In p (products s) /\ Product.id p = snd link)).

(** The primary keys and the UNIQUE columns of [users] (lines 40-43). *)
Definition users_constraints (l : list User.t) : Prop :=
  NoDup (map User.id l) /\ NoDup (map User.name l) /\ NoDup (map User.email l).

Definition ann_order : Order.t :=
  {| Order.id := 1; Order.order_date := 0; Order.user_id := 1 |}.

(** Ann and Bob, the Pen, and Ann's order of the Pen. *)
Definition shop_store : Store :=
  {| users := [ann; bob]; orders := [ann_order]; products := [pen];
     order_product := [(1, 1)]; store_ok := eq_refl |}.

(** * Properties *)

(** ** The integers of a store *)

Lemma checked_true (b : bool) : b = true -> exists ok, checked b = Some ok.
Proof. intros ->. exists eq_refl. reflexivity. Qed.

Lemma store_fits_parts (s : Store) :
  forallb (fun u => in_int64 (User.id u)) (users s) = true
  /\ forallb (fun o => in_int64 (Order.id o) && in_int64 (Order.user_id o)) (orders s) = true
  /\ forallb (fun p => in_int64 (Product.id p)) (products s) = true
  /\ forallb (fun link => in_int64 (fst link) && in_int64 (snd link)) (order_product s)
     = true.
Proof.
  pose proof (store_ok s) as Hok. unfold store_fits in Hok.
  apply andb_true_iff in Hok. destruct Hok as [Hok Hlinks].
  apply andb_true_iff in Hok. destruct Hok as [Hok Hps].
  apply andb_true_iff in Hok. destruct Hok as [Hus Hos].
  repeat split; assumption.
Qed.

Lemma users_in_range (s : Store) (u : User.t) :
  In u (users s) -> in_int64 (User.id u) = true.
Proof.
  intros Hin. destruct (store_fits_parts s) as [Hus _].
  rewrite forallb_forall in Hus. exact (Hus u Hin).
Qed.

Lemma products_in_range (s : Store) (p : Product.t) :
  In p (products s) -> in_int64 (Product.id p) = true.
Proof.
  intros Hin. destruct (store_fits_parts s) as [_ [_ [Hps _]]].
  rewrite forallb_forall in Hps. exact (Hps p Hin).
Qed.

Lemma with_users_rest (s : Store) (l : list User.t) :
  orders (with_users s l) = orders s
  /\ products (with_users s l) = products s
  /\ order_product (with_users s l) = order_product s.
Proof.
  unfold with_users.
  destruct (checked (store_fits l (orders s) (products s) (order_product s)));
    repeat split.
Qed.

(** A [users] table whose ids SQLite can keep is written as given. *)
Lemma with_users_fits (s : Store) (l : list User.t) :
  forallb (fun u => in_int64 (User.id u)) l = true -> users (with_users s l) = l.
Proof.
  intros Hl. destruct (store_fits_parts s) as [_ [Hos [Hps Hlinks]]].
  assert (Hfit : store_fits l (orders s) (products s) (order_product s) = true).
  { unfold store_fits. rewrite Hl, Hos, Hps, Hlinks. reflexivity. }
  unfold with_users. destruct (checked_true _ Hfit) as [ok ->]. reflexivity.
Qed.

Lemma with_products_rest (s : Store) (l : list Product.t) (links : list (Z * Z)) :
  users (with_products s l links) = users s
  /\ orders (with_products s l links) = orders s.
Proof.
  unfold with_products.
  destruct (checked (store_fits (users s) (orders s) l links)); split; reflexivity.
Qed.

(** [products] and [order_product] tables whose integers SQLite can keep are
    written as given. *)
Lemma with_products_fits (s : Store) (l : list Product.t) (links : list (Z * Z)) :
  forallb (fun p => in_int64 (Product.id p)) l = true ->
  forallb (fun link => in_int64 (fst link) && in_int64 (snd link)) links = true ->
  products (with_products s l links) = l
  /\ order_product (with_products s l links) = links.
Proof.
  intros Hl Hlinks. destruct (store_fits_parts s) as [Hus [Hos _]].
  assert (Hfit : store_fits (users s) (orders s) l links = true).
  { unfold store_fits. rewrite Hus, Hos, Hl, Hlinks. reflexivity. }
  unfold with_products. destruct (checked_true _ Hfit) as [ok ->].
  split; reflexivity.
Qed.

Lemma forallb_filter {A : Type} (f g : A -> bool) (l : list A) :
  forallb f l = true -> forallb f (filter g l) = true.
Proof.
  rewrite !forallb_forall. intros Hall x Hin.
  apply filter_In in Hin. exact (Hall x (proj1 Hin)).
Qed.

Lemma in_int64_range (n : Z) : - 2 ^ 63 <= n < 2 ^ 63 -> in_int64 n = true.
Proof.
  intros [Hlo Hhi]. unfold in_int64.
  apply andb_true_iff. split; [apply Z.leb_le | apply Z.ltb_lt]; assumption.
Qed.

Lemma in_int64_iff (n : Z) : in_int64 n = true <-> - 2 ^ 63 <= n < 2 ^ 63.
Proof.
  unfold in_int64. rewrite andb_true_iff, Z.leb_le, Z.ltb_lt. reflexivity.
Qed.

Lemma in_int64_outside (n : Z) :
  n < - 2 ^ 63 \/ 2 ^ 63 <= n -> in_int64 n = false.
Proof.
  intros Hout. destruct (in_int64 n) eqn:Hin; [|reflexivity].
  apply in_int64_iff in Hin. destruct Hout; lia.
Qed.

Lemma delete_user_table (s : Store) (id : Z) :
  users (with_users s (filter (fun u => negb (User.id u =? id)) (users s)))
  = filter (fun u => negb (User.id u =? id)) (users s).
Proof.
  apply with_users_fits. apply forallb_filter.
  exact (proj1 (store_fits_parts s)).
Qed.

Lemma delete_product_tables (s : Store) (id : Z) :
  products (with_products s
              (filter (fun p => negb (Product.id p =? id)) (products s))
              (filter (fun link => negb (snd link =? id)) (order_product s)))
  = filter (fun p => negb (Product.id p =? id)) (products s)
  /\ order_product (with_products s
                      (filter (fun p => negb (Product.id p =? id)) (products s))
                      (filter (fun link => negb (snd link =? id)) (order_product s)))
     = filter (fun link => negb (snd link =? id)) (order_product s).
Proof.
  destruct (store_fits_parts s) as [_ [_ [Hps Hlinks]]].
  apply with_products_fits; apply forallb_filter; assumption.
Qed.

(** ** Lookup *)

Lemma session_get_none {R : Type} (key : R -> Z) (table : list R) (id : Z) :
  (forall r, In r table -> key r <> id) -> session_get key table id = None.
Proof.
  intros Hno. unfold session_get.
  induction table as [|r rest IH]; cbn [find]; [reflexivity|].
  destruct (Z.eqb_spec (key r) id) as [Heq|_].
  - exfalso. apply (Hno r); [left; reflexivity | exact Heq].
  - apply IH. intros r' Hin. apply Hno. right. exact Hin.
Qed.

Lemma session_get_key {R : Type} (key : R -> Z) (table : list R) (id : Z) (r : R) :
  session_get key table id = Some r -> In r table /\ key r = id.
Proof.
  unfold session_get. intros Hfind. apply find_some in Hfind.
  destruct Hfind as [Hin Heq]. split; [exact Hin | now apply Z.eqb_eq].
Qed.

(** A stored row is found by [db.session.get]: its id is in range. *)
Lemma db_session_get_user (s : Store) (id : Z) (user : User.t) :
  session_get User.id (users s) id = Some user ->
  db_session_get User.id (users s) id = Ok (Some user).
Proof.
  intros Hget. destruct (session_get_key _ _ _ _ Hget) as [Hin Hid].
  unfold db_session_get. rewrite <- Hid, (users_in_range s user Hin), Hid, Hget.
  reflexivity.
Qed.

Lemma db_session_get_product (s : Store) (id : Z) (product : Product.t) :
  session_get Product.id (products s) id = Some product ->
  db_session_get Product.id (products s) id = Ok (Some product).
Proof.
  intros Hget. destruct (session_get_key _ _ _ _ Hget) as [Hin Hid].
  unfold db_session_get. rewrite <- Hid, (products_in_range s product Hin), Hid, Hget.
  reflexivity.
Qed.

Lemma db_session_get_key {R : Type} (key : R -> Z) (table : list R) (id : Z) (r : R) :
  db_session_get key table id = Ok (Some r) -> session_get key table id = Some r.
Proof.
  unfold db_session_get. destruct (in_int64 id); [|discriminate].
  intros Heq. inversion Heq. reflexivity.
Qed.

(** An id in range that no row has is looked up as None. *)
Lemma db_session_get_none {R : Type} (key : R -> Z) (table : list R) (id : Z) :
  in_int64 id = true ->
  (forall r, In r table -> key r <> id) ->
  db_session_get key table id = Ok None.
Proof.
  intros Hrange Hno. unfold db_session_get.
  rewrite Hrange, (session_get_none key table id Hno). reflexivity.
Qed.

Lemma dict_get_in_keys (d : list (string * json)) (key : string) :
  In key (dict_keys d) -> dict_get d key <> None.
Proof.
  induction d as [|[k v] rest IH]; cbn [dict_keys map fst In dict_get]; [tauto|].
  intros [Hk|Hin].
  - subst k. rewrite String.eqb_refl. discriminate.
  - destruct (String.eqb k key); [discriminate | apply IH, Hin].
Qed.

(** ** What [load] returns under [load_instance] *)

(** The Meta option alone decides whether the handlers get a dict. *)
Lemma load_without_primary_key {D : Type} (schema : Schema D) (j : json)
    (partial : bool) (d : D) :
  deserialize_fields schema partial j = inr d ->
  primary_key schema d = None ->
  load schema j partial = Ok (if load_instance schema then AsInstance d else AsDict d).
Proof.
  intros Hd Hk. unfold load, make_instance. rewrite Hd, Hk.
  destruct (load_instance schema); reflexivity.
Qed.

(** The schemas of lines 98 and 102 never hand back a dict. *)
Lemma load_user_schema `{Library} (j : json) (partial : bool) :
  load user_schema j partial =
  match UserSchema._deserialize partial j with
  | inl e => Raise (ValidationError e)
  | inr d =>
      match UserSchema.id d with
      | Some _ => Raise AttributeError
      | None => Ok (AsInstance d)
      end
  end.
Proof.
  unfold load, make_instance, user_schema, UserSchema.schema.
  cbn [deserialize_fields load_instance primary_key].
  destruct (UserSchema._deserialize partial j); reflexivity.
Qed.

Lemma load_product_schema `{Library} (j : json) (partial : bool) :
  load product_schema j partial =
  match ProductSchema._deserialize partial j with
  | inl e => Raise (ValidationError e)
  | inr d =>
      match ProductSchema.id d with
      | Some _ => Raise AttributeError
      | None => Ok (AsInstance d)
      end
  end.
Proof.
  unfold load, make_instance, product_schema, ProductSchema.schema.
  cbn [deserialize_fields load_instance primary_key].
  destruct (ProductSchema._deserialize partial j); reflexivity.
Qed.

(** ** The four writing handlers, in closed form *)

Lemma create_user_eq `{Library} (s : Store) (j : json) :
  create_user s j =
  (s, match UserSchema._deserialize false j with
      | inl e => respond (Messages e) 400
      | inr d =>
          Unhandled (match UserSchema.id d with
                     | Some _ => AttributeError
                     | None => TypeError
                     end)
      end).
Proof.
  unfold create_user. rewrite load_user_schema.
  destruct (UserSchema._deserialize false j) as [e|d]; [reflexivity|].
  destruct (UserSchema.id d); reflexivity.
Qed.

Lemma create_product_eq `{Library} (s : Store) (j : json) :
  create_product s j =
  (s, match ProductSchema._deserialize false j with
      | inl e => respond (Messages e) 400
      | inr d =>
          Unhandled (match ProductSchema.id d with
                     | Some _ => AttributeError
                     | None => TypeError
                     end)
      end).
Proof.
  unfold create_product. rewrite load_product_schema.
  destruct (ProductSchema._deserialize false j) as [e|d]; [reflexivity|].
  destruct (ProductSchema.id d); reflexivity.
Qed.

Lemma update_user_eq `{Library} (s : Store) (id : Z) (j : json) :
  update_user s id j =
  (s, match db_session_get User.id (users s) id with
      | Raise e => Unhandled e
      | Ok None => respond (message_body "Invalid user id") 404
      | Ok (Some _) =>
          match UserSchema._deserialize true j with
          | inl e => respond (Messages e) 400
          | inr d =>
              Unhandled (match UserSchema.id d with
                         | Some _ => AttributeError
                         | None => TypeError
                         end)
          end
      end).
Proof.
  unfold update_user.
  destruct (db_session_get User.id (users s) id) as [[user|]|e]; [|reflexivity..].
  rewrite load_user_schema.
  destruct (UserSchema._deserialize true j) as [e|d]; [reflexivity|].
  destruct (UserSchema.id d); reflexivity.
Qed.

Lemma update_product_eq `{Library} (s : Store) (id : Z) (j : json) :
  update_product s id j =
  (s, match db_session_get Product.id (products s) id with
      | Raise e => Unhandled e
      | Ok None => respond (message_body "Invalid product id") 404
      | Ok (Some _) =>
          match ProductSchema._deserialize true j with
          | inl e => respond (Messages e) 400
          | inr d =>
              Unhandled (match ProductSchema.id d with
                         | Some _ => AttributeError
                         | None => TypeError
                         end)
          end
      end).
Proof.
  unfold update_product.
  destruct (db_session_get Product.id (products s) id) as [[product|]|e];
    [|reflexivity..].
  rewrite load_product_schema.
  destruct (ProductSchema._deserialize true j) as [e|d]; [reflexivity|].
  destruct (ProductSchema.id d); reflexivity.
Qed.

(** ** Partial loads *)

Lemma field_errors_partial {T : Type} (key : string) (required : bool)
    (field : json -> list message + T) (raw : option json) (k : string)
    (msgs : list message) :
  In (k, msgs) (field_errors key (deserialize required true field raw)) ->
  k = key /\ raw <> None.
Proof.
  destruct raw as [v|]; cbn [deserialize].
  - intros Hin. split; [|discriminate].
    destruct v; cbn [field_errors] in Hin;
      try (destruct Hin as [Heq|[]]; inversion Heq; reflexivity);
      match type of Hin with
      | context [field ?v] =>
          destruct (field v); cbn [field_errors] in Hin;
          [destruct Hin as [Heq|[]]; inversion Heq; reflexivity | destruct Hin]
      end.
  - rewrite andb_false_r. cbn [field_errors]. intros [].
Qed.

Lemma unknown_errors_in (fields : list string) (d : list (string * json))
    (k : string) (msgs : list message) :
  In (k, msgs) (unknown_errors fields d) ->
  In k (dict_keys d) /\ mem_str k fields = false.
Proof.
  unfold unknown_errors. rewrite in_map_iff.
  intros [k' [Heq Hin]]. inversion Heq; subst k' msgs.
  apply filter_In in Hin. destruct Hin as [Hin Hmem].
  split; [exact Hin | now apply negb_true_iff].
Qed.

(** Under [partial=True] every key of the error dict is a key of the
    payload, or ["_schema"] when the payload is no dict. *)
Lemma user_partial_errors `{Library} (j : json) (e : messages) (k : string)
    (msgs : list message) :
  UserSchema._deserialize true j = inl e ->
  In (k, msgs) e ->
  payload_get j k <> None \/ k = "_schema".
Proof.
  destruct j as [| | | | | |d];
    try (cbn [UserSchema._deserialize]; intros He Hin; inversion He; subst e;
         destruct Hin as [Heq|[]]; inversion Heq; right; reflexivity).
  cbn [UserSchema._deserialize payload_get].
  set (errs := (_ ++ _)%list).
  destruct errs as [|x rest] eqn:Herrs; [discriminate|].
  intros He Hin. inversion He; subst e. clear He. left.
  rewrite <- Herrs in Hin. unfold errs in Hin. clear Herrs errs.
  repeat (apply in_app_or in Hin; destruct Hin as [Hin|Hin]);
    try (apply field_errors_partial in Hin; destruct Hin as [-> Hraw]; exact Hraw).
  apply unknown_errors_in in Hin. apply dict_get_in_keys, Hin.
Qed.

Lemma user_partial_absent_value `{Library} (j : json) (d : UserSchema.data)
    (field : string) :
  UserSchema._deserialize true j = inr d ->
  payload_get j field = None ->
  UserSchema.value d field = None.
Proof.
  destruct j as [| | | | | |items]; try discriminate.
  cbn [UserSchema._deserialize payload_get].
  set (errs := (_ ++ _)%list).
  destruct errs; [|discriminate].
  intros Hd Habs. inversion Hd; subst d. clear Hd.
  unfold UserSchema.value.
  destruct (String.eqb_spec field "id") as [->|_];
    [rewrite Habs; reflexivity|].
  destruct (String.eqb_spec field "name") as [->|_];
    [rewrite Habs; reflexivity|].
  destruct (String.eqb_spec field "address") as [->|_];
    [rewrite Habs; reflexivity|].
  destruct (String.eqb_spec field "email") as [->|_];
    [rewrite Habs; reflexivity|].
  reflexivity.
Qed.

(** ** Reachable stores *)

Lemma handle_products `{Library} (s : Store) (r : request) (p : Product.t) :
  In p (products (fst (handle s r))) -> In p (products s).
Proof.
  destruct r as [|id|j|id j|id| |id|j|id j|id]; cbn [handle].
  - exact (fun H => H).
  - unfold get_user.
    destruct (db_session_get User.id (users s) id) as [[user|]|e]; exact (fun H => H).
  - rewrite create_user_eq. exact (fun H => H).
  - rewrite update_user_eq. exact (fun H => H).
  - unfold delete_user, commit_delete_user.
    destruct (db_session_get User.id (users s) id) as [[user|]|e];
      try exact (fun H => H).
    destruct (existsb _ (orders s)); [exact (fun H => H)|].
    cbn [fst]. rewrite (proj1 (proj2 (with_users_rest s _))). exact (fun H => H).
  - exact (fun H => H).
  - unfold get_product.
    destruct (db_session_get Product.id (products s) id) as [[product|]|e];
      exact (fun H => H).
  - rewrite create_product_eq. exact (fun H => H).
  - rewrite update_product_eq. exact (fun H => H).
  - unfold delete_product, commit_delete_product.
    destruct (db_session_get Product.id (products s) id) as [[product|]|e];
      try exact (fun H => H).
    cbn [fst]. rewrite (proj1 (delete_product_tables s _)). intros Hin.
    apply filter_In in Hin. exact (proj1 Hin).
Qed.

(** No handler adds a row: from the empty tables the API reaches the empty
    tables only. *)
Lemma reachable_empty `{Library} (s : Store) : reachable s -> s = empty_store.
Proof.
  induction 1 as [|s r _ IH]; [reflexivity|]. subst s.
  destruct r as [|id|j|id j|id| |id|j|id j|id]; cbn [handle];
    try reflexivity;
    try (unfold get_user, delete_user, get_product, delete_product, db_session_get;
         destruct (in_int64 id); reflexivity).
  - rewrite create_user_eq. reflexivity.
  - rewrite update_user_eq. reflexivity.
  - rewrite create_product_eq. reflexivity.
  - rewrite update_product_eq. reflexivity.
Qed.

(** Every handler keeps a property that all stored products have; so the
    bound of line 94 holds of the stored prices wherever it held before. *)
Lemma handle_keeps_products `{Library} (P : Product.t -> Prop) (s : Store) (r : request) :
  (forall p, In p (products s) -> P p) ->
  forall p, In p (products (fst (handle s r))) -> P p.
Proof.
  intros Hall p Hin. apply Hall. exact (handle_products s r p Hin).
Qed.

Lemma reachable_prices `{Library} (s : Store) :
  reachable s ->
  forall p, In p (products s) -> PrimFloat.leb 0.01 (Product.price p) = true.
Proof.
  intros Hr p Hin. rewrite (reachable_empty s Hr) in Hin. destruct Hin.
Qed.

(** POST /products with price 0 (the int or the float) is refused with 400
    and the price message, whatever the store. *)
Lemma create_product_price_zero `{Library} (s : Store) (name : string) :
  (1 <= String.length name <= 120)%nat ->
  create_product s (JDict [("name", JStr name); ("price", JInt 0)])
  = (s, respond (Messages [("price", [Msg_range_min 0.01])]) 400)
  /\ create_product s (JDict [("name", JStr name); ("price", JFloat 0)])
     = (s, respond (Messages [("price", [Msg_range_min 0.01])]) 400).
Proof.
  intros [Hlo Hhi]. rewrite !create_product_eq.
  cbn [ProductSchema._deserialize dict_get].
  assert (Hname : String_field 1 120 (JStr name) = inr name).
  { cbn [String_field].
    destruct (Nat.ltb_spec (String.length name) 1) as [Hlt|_]; [lia|].
    destruct (Nat.ltb_spec 120 (String.length name)) as [Hgt|_]; [lia|].
    reflexivity. }
  assert (Hid : String.eqb "name" "id" = false) by reflexivity.
  assert (Hpn : String.eqb "name" "price" = false) by reflexivity.
  assert (Hpi : String.eqb "price" "id" = false) by reflexivity.
  assert (Hnn : String.eqb "name" "name" = true) by reflexivity.
  assert (Hpp : String.eqb "price" "price" = true) by reflexivity.
  rewrite Hid, Hpn, Hpi, Hnn, Hpp.
  cbn [deserialize andb negb]. rewrite Hname.
  split; reflexivity.
Qed.

(** * The claims *)

(** C1.  POST /users with a payload that passes the User validation: the
    claim has it answer 201 with a fresh positive id.  In the code
    [user_schema.load] returns a User object ([load_instance = True],
    line 71), which [user_data['name']] (line 131) cannot subscript: every
    valid payload leaves the handler with an exception, the response is 500
    and no user is stored; so it is for Ann's payload on the empty tables. *)
Theorem create_user_valid_payload_raises :
  (forall (L : Library) (s : Store) (j : json) (d : UserSchema.data),
      UserSchema._deserialize false j = inr d ->
      fst (create_user s j) = s /\ http_status (snd (create_user s j)) = 500)
  /\ (forall (L : Library) (s : Store) (j : json),
         http_status (snd (create_user s j)) <> 201)
  /\ @create_user sample_library empty_store ann_payload
     = (empty_store, Unhandled TypeError).
Proof.
  split; [|split].
  - intros L s j d Hd. rewrite create_user_eq, Hd. split; reflexivity.
  - intros L s j. rewrite create_user_eq.
    destruct (UserSchema._deserialize false j); cbn; discriminate.
  - reflexivity.
Qed.

(** C2.  Creating a user and fetching it by the returned id: the claim has
    the fetch return the submitted name, address and email.  In the code
    POST /users returns no id for a valid payload (it raises, see C1) and
    changes no row, so a GET afterwards answers as it did before; for Ann's
    payload on the empty tables GET /users/1 is 404. *)
Theorem create_user_then_get_user :
  (forall (L : Library) (s : Store) (j : json) (id : Z),
      get_user (fst (create_user s j)) id = get_user s id)
  /\ (forall (L : Library) (s : Store) (j : json) (b : body),
         snd (create_user s j) <> respond b 201)
  /\ get_user (fst (@create_user sample_library empty_store ann_payload)) 1
     = (empty_store, respond (message_body "User not found") 404).
Proof.
  split; [|split].
  - intros L s j id. rewrite create_user_eq. reflexivity.
  - intros L s j b. rewrite create_user_eq.
    destruct (UserSchema._deserialize false j); cbn; discriminate.
  - reflexivity.
Qed.

(** C3.  POST /users reusing a stored name or email: the claim has it
    answer 409 and leave the store as it was.  In the code the commit that
    could meet the UNIQUE constraint is never reached (see C1): no request
    is answered 409; Ann's payload on a store that holds Ann raises
    TypeError (500), the store unchanged. *)
Theorem create_user_duplicate_raises :
  (forall (L : Library) (s : Store) (j : json),
      http_status (snd (create_user s j)) <> 409 /\ fst (create_user s j) = s)
  /\ @create_user sample_library ann_store ann_payload
     = (ann_store, Unhandled TypeError).
Proof.
  split.
  - intros L s j. rewrite create_user_eq. split; [|reflexivity].
    destruct (UserSchema._deserialize false j); cbn; discriminate.
  - reflexivity.
Qed.

(** C4.  PUT /users/{id} with only an address: the claim has it answer 200
    and set the address.  In the code the partial load returns a User
    object as well, and ['name' in user_data] (line 157) raises TypeError:
    no update is answered 200 and none changes a row; Ann keeps her
    address. *)
Theorem update_user_address_raises :
  (forall (L : Library) (s : Store) (id : Z) (j : json),
      http_status (snd (update_user s id j)) <> 200 /\ fst (update_user s id j) = s)
  /\ @update_user sample_library ann_store 1 (JDict [("address", JStr "X")])
     = (ann_store, Unhandled TypeError)
  /\ option_map User.address (session_get User.id (users ann_store) 1)
     = Some "1 Main St".
Proof.
  split; [|split].
  - intros L s id j. rewrite update_user_eq. split; [|reflexivity].
    destruct (db_session_get User.id (users s) id) as [[user|]|e];
      [|cbn; discriminate..].
    destruct (UserSchema._deserialize true j); cbn; discriminate.
  - reflexivity.
  - reflexivity.
Qed.

(** C5.  Stored prices are at least 0.01; POST /products with price 0 is
    400, with price 0.01 it is 201; no PUT sets a lower price.  The bound
    and the 400 hold ([reachable_prices], [create_product_price_zero],
    [handle_keeps_products]); the 201 does not: the product with price
    0.01 passes the validation and the handler then raises TypeError at
    [product_data['name']] (line 204), as for every payload, and stores
    nothing. *)
Theorem create_product_minimum_price_raises :
  @ProductSchema._deserialize sample_library false (pen_payload (JFloat 0.01))
  = inr {| ProductSchema.id := None; ProductSchema.name := Some "Pen";
           ProductSchema.price := Some 0.01%float |}
  /\ @create_product sample_library empty_store (pen_payload (JFloat 0.01))
     = (empty_store, Unhandled TypeError)
  /\ (forall (L : Library) (s : Store) (j : json),
         http_status (snd (create_product s j)) <> 201 /\ fst (create_product s j) = s).
Proof.
  split; [|split].
  - reflexivity.
  - reflexivity.
  - intros L s j. rewrite create_product_eq. split; [|reflexivity].
    destruct (ProductSchema._deserialize false j); cbn; discriminate.
Qed.

(** C6.  PUT /users/{id} on an existing user validates only what the
    payload holds.  Every key of the 400 body is a key of the payload (or
    ["_schema"] for a payload that is no dict); and a schema field the
    payload does not hold has no error, has no value in the loaded data, and
    keeps its stored value. *)
Theorem update_user_partial_validation `{Library}
    (s : Store) (id : Z) (user : User.t) (j : json) (field : string) :
  session_get User.id (users s) id = Some user ->
  In field UserSchema.fields ->
  payload_get j field = None ->
  (forall e k msgs,
      snd (update_user s id j) = respond (Messages e) 400 ->
      In (k, msgs) e -> payload_get j k <> None \/ k = "_schema")
  /\ (forall e msgs,
         snd (update_user s id j) = respond (Messages e) 400 -> ~ In (field, msgs) e)
  /\ (forall x,
         load user_schema j true = Ok x ->
         UserSchema.value (loaded_data x) field = None)
  /\ (exists user',
         session_get User.id (users (fst (update_user s id j))) id = Some user'
         /\ dict_get (user_items user') field = dict_get (user_items user) field).
Proof.
  intros Hget Hfield Habs.
  assert (Hresp : forall e,
             snd (update_user s id j) = respond (Messages e) 400 ->
             UserSchema._deserialize true j = inl e).
  { intros e. rewrite update_user_eq, (db_session_get_user s id user Hget). cbn [snd].
    destruct (UserSchema._deserialize true j) as [e'|d]; [|discriminate].
    intros Heq. inversion Heq. reflexivity. }
  split; [|split; [|split]].
  - intros e k msgs He Hin. exact (user_partial_errors j e k msgs (Hresp e He) Hin).
  - intros e msgs He Hin.
    destruct (user_partial_errors j e field msgs (Hresp e He) Hin) as [Hk|Hk].
    + exact (Hk Habs).
    + subst field. cbn in Hfield.
      destruct Hfield as [Hf|[Hf|[Hf|[Hf|[]]]]]; discriminate.
  - intros x. rewrite load_user_schema.
    destruct (UserSchema._deserialize true j) as [e|d] eqn:Hd; [discriminate|].
    destruct (UserSchema.id d); [discriminate|].
    intros Hx. inversion Hx. cbn [loaded_data].
    exact (user_partial_absent_value j d field Hd Habs).
  - exists user. rewrite update_user_eq. cbn [fst]. split; [exact Hget | reflexivity].
Qed.

Lemma update_user_partial_validation_witness :
  session_get User.id (users ann_store) 1 = Some ann
  /\ In "name" UserSchema.fields
  /\ payload_get (JDict [("address", JStr "X")]) "name" = None
  /\ exists user',
       session_get User.id
         (users (fst (@update_user sample_library ann_store 1
                        (JDict [("address", JStr "X")])))) 1 = Some user'
       /\ dict_get (user_items user') "name" = dict_get (user_items ann) "name".
Proof.
  split; [reflexivity|]. split; [right; left; reflexivity|]. split; [reflexivity|].
  apply (@update_user_partial_validation sample_library ann_store 1 ann
           (JDict [("address", JStr "X")]) "name");
    [reflexivity | right; left; reflexivity | reflexivity].
Defined.

(** C7.  The statuses of PUT /users/{id}: the claim has 200, 400 and 404
    only.  In the code every response is 404, 400 or 500, never 200 and
    never 409: a payload that passes the validation raises (see C4), as
    the rename of Bob to the stored name of Ann does. *)
Theorem update_user_statuses :
  (forall (L : Library) (s : Store) (id : Z) (j : json),
      http_status (snd (update_user s id j)) = 404
      \/ http_status (snd (update_user s id j)) = 400
      \/ http_status (snd (update_user s id j)) = 500)
  /\ @update_user sample_library (with_users empty_store [ann; bob]) 2
       (JDict [("name", JStr "Ann")])
     = (with_users empty_store [ann; bob], Unhandled TypeError)
  /\ http_status (snd (@update_user sample_library (with_users empty_store [ann; bob]) 2
                         (JDict [("name", JStr "Ann")]))) = 500.
Proof.
  split; [|split].
  - intros L s id j. rewrite update_user_eq. cbn [snd].
    destruct (db_session_get User.id (users s) id) as [[user|]|e];
      [|left; reflexivity | right; right; reflexivity].
    destruct (UserSchema._deserialize true j);
      [right; left; reflexivity | right; right; reflexivity].
  - reflexivity.
  - reflexivity.
Qed.

(** C8.  GET /users/{id} for an id that no stored user has: the claim has it
    answer 404 for every such id.  It does for every id that fits the
    signed 64-bit INTEGER of the primary key (so for every id of the route
    below 2^63): the body is {"message": "User not found"} and the store is
    as it was. *)
Theorem get_user_not_found (s : Store) (id : Z) :
  - 2 ^ 63 <= id < 2 ^ 63 ->
  (forall u, In u (users s) -> User.id u <> id) ->
  get_user s id
  = (s, Returned {| resp_body := Json (JDict [("message", JStr "User not found")]);
                    status := 404 |}).
Proof.
  intros Hrange Hno. unfold get_user.
  rewrite (db_session_get_none User.id (users s) id (in_int64_range id Hrange) Hno).
  reflexivity.
Qed.

Lemma get_user_not_found_witness :
  - 2 ^ 63 <= 7 < 2 ^ 63
  /\ (forall u, In u (users ann_store) -> User.id u <> 7)
  /\ get_user ann_store 7
     = (ann_store,
        Returned {| resp_body := Json (JDict [("message", JStr "User not found")]);
                    status := 404 |}).
Proof.
  assert (Hrange : - 2 ^ 63 <= 7 < 2 ^ 63) by (split; [discriminate | reflexivity]).
  assert (Hno : forall u, In u (users ann_store) -> User.id u <> 7).
  { intros u [Hu|[]]. rewrite <- Hu. discriminate. }
  split; [exact Hrange|].
  split; [exact Hno | exact (get_user_not_found ann_store 7 Hrange Hno)].
Defined.

(** C8, as the claim states it, fails at the id 2^63, which the route lets
    through and no stored user has: [db.session.get] raises OverflowError,
    the handler does not catch it, and the response is 500. *)
Lemma get_user_not_found_overflow :
  (forall u, In u (users ann_store) -> User.id u <> 2 ^ 63)
  /\ get_user ann_store (2 ^ 63) = (ann_store, Unhandled OverflowError)
  /\ http_status (snd (get_user ann_store (2 ^ 63))) = 500
  /\ get_user ann_store (2 ^ 63)
     <> (ann_store,
         Returned {| resp_body := Json (JDict [("message", JStr "User not found")]);
                     status := 404 |}).
Proof.
  split; [|split; [|split]].
  - intros u [Hu|[]]. rewrite <- Hu. discriminate.
  - reflexivity.
  - reflexivity.
  - discriminate.
Qed.

(** C9.  POST /products reusing a stored product name: the claim has it
    answer 201 and store a second product.  In the code no POST /products
    is answered 409, but none is answered 201 either: a second Pen on a
    store that holds a Pen raises TypeError (500, see C5) and the products
    stay as they were. *)
Theorem create_product_same_name_raises :
  (forall (L : Library) (s : Store) (j : json),
      http_status (snd (create_product s j)) <> 409
      /\ products (fst (create_product s j)) = products s)
  /\ @create_product sample_library pen_store (pen_payload (JFloat 2.5))
     = (pen_store, Unhandled TypeError).
Proof.
  split.
  - intros L s j. rewrite create_product_eq. split; [|reflexivity].
    destruct (ProductSchema._deserialize false j); cbn; discriminate.
  - reflexivity.
Qed.

(** C10.  PUT for an id that no row has: the claim has 404 for every such
    id.  For every id that fits the signed 64-bit INTEGER of the primary key
    (so for every id of the route below 2^63), and whatever the payload: when
    no user has the id PUT /users/{id} answers 404 with {"message": "Invalid
    user id"}, where GET and DELETE answer 404 with "User not found"; when
    no product has the id PUT /products/{id} answers 404 with {"message":
    "Invalid product id"}, where GET and DELETE answer 404 with "Product not
    found". *)
Theorem update_missing_id_message `{Library} (s : Store) (id : Z) (j : json) :
  - 2 ^ 63 <= id < 2 ^ 63 ->
  ((forall u, In u (users s) -> User.id u <> id) ->
   update_user s id j
   = (s, Returned {| resp_body := Json (JDict [("message", JStr "Invalid user id")]);
                     status := 404 |})
   /\ get_user s id
      = (s, Returned {| resp_body := Json (JDict [("message", JStr "User not found")]);
                        status := 404 |})
   /\ delete_user s id
      = (s, Returned {| resp_body := Json (JDict [("message", JStr "User not found")]);
                        status := 404 |})
   /\ snd (update_user s id j) <> snd (get_user s id))
  /\ ((forall p, In p (products s) -> Product.id p <> id) ->
      update_product s id j
      = (s, Returned {| resp_body := Json (JDict [("message", JStr "Invalid product id")]);
                        status := 404 |})
      /\ get_product s id
         = (s, Returned {| resp_body :=
                             Json (JDict [("message", JStr "Product not found")]);
                           status := 404 |})
      /\ delete_product s id
         = (s, Returned {| resp_body :=
                             Json (JDict [("message", JStr "Product not found")]);
                           status := 404 |})
      /\ snd (update_product s id j) <> snd (get_product s id)).
Proof.
  intros Hrange. apply in_int64_range in Hrange. split.
  - intros Hu.
    pose proof (db_session_get_none User.id (users s) id Hrange Hu) as Hget.
    unfold update_user, get_user, delete_user. rewrite Hget.
    repeat split; try reflexivity. cbn. discriminate.
  - intros Hp.
    pose proof (db_session_get_none Product.id (products s) id Hrange Hp) as Hget.
    unfold update_product, get_product, delete_product. rewrite Hget.
    repeat split; try reflexivity. cbn. discriminate.
Qed.

Lemma update_missing_id_message_witness :
  - 2 ^ 63 <= 1 < 2 ^ 63
  /\ (forall u, In u (users pen_store) -> User.id u <> 1)
  /\ @update_user sample_library pen_store 1 ann_payload
     = (pen_store,
        Returned {| resp_body := Json (JDict [("message", JStr "Invalid user id")]);
                    status := 404 |})
  /\ (forall p, In p (products ann_store) -> Product.id p <> 1)
  /\ @update_product sample_library ann_store 1 (pen_payload (JFloat 2.5))
     = (ann_store,
        Returned {| resp_body := Json (JDict [("message", JStr "Invalid product id")]);
                    status := 404 |}).
Proof.
  assert (Hrange : - 2 ^ 63 <= 1 < 2 ^ 63) by (split; [discriminate | reflexivity]).
  assert (Hu : forall u, In u (users pen_store) -> User.id u <> 1).
  { intros u []. }
  assert (Hp : forall p, In p (products ann_store) -> Product.id p <> 1).
  { intros p []. }
  split; [exact Hrange|]. split; [exact Hu|]. split.
  - exact (proj1 (proj1 (@update_missing_id_message sample_library pen_store 1
                           ann_payload Hrange) Hu)).
  - split; [exact Hp|].
    exact (proj1 (proj2 (@update_missing_id_message sample_library ann_store 1
                           (pen_payload (JFloat 2.5)) Hrange) Hp)).
Defined.

(** C10, as the claim states it, fails at the id 2^63, which the routes let
    through and no row has: [db.session.get] raises OverflowError before
    the handlers reach their 404, and the response is 500. *)
Lemma update_missing_id_overflow :
  (forall u, In u (users ann_store) -> User.id u <> 2 ^ 63)
  /\ (forall p, In p (products ann_store) -> Product.id p <> 2 ^ 63)
  /\ @update_user sample_library ann_store (2 ^ 63) ann_payload
     = (ann_store, Unhandled OverflowError)
  /\ @update_product sample_library ann_store (2 ^ 63) (pen_payload (JFloat 2.5))
     = (ann_store, Unhandled OverflowError)
  /\ http_status (snd (@update_user sample_library ann_store (2 ^ 63) ann_payload)) = 500
  /\ http_status (snd (@update_product sample_library ann_store (2 ^ 63)
                         (pen_payload (JFloat 2.5)))) = 500.
Proof.
  split; [|split; [|repeat split]].
  - intros u [Hu|[]]. rewrite <- Hu. discriminate.
  - intros p [].
Qed.

(** * Further properties of the handlers *)

(** ** Lookup by primary key *)

Lemma session_get_filter_same {R : Type} (key : R -> Z) (table : list R) (id : Z) :
  session_get key (filter (fun r => negb (key r =? id)) table) id = None.
Proof.
  apply session_get_none. intros r Hin Heq.
  apply filter_In in Hin. destruct Hin as [_ Hne].
  rewrite Heq, Z.eqb_refl in Hne. discriminate.
Qed.

Lemma session_get_filter_other {R : Type} (key : R -> Z) (table : list R) (id id' : Z) :
  id' <> id ->
  session_get key (filter (fun r => negb (key r =? id)) table) id'
  = session_get key table id'.
Proof.
  intros Hne. unfold session_get.
  induction table as [|r rest IH]; [reflexivity|]. cbn [filter find].
  destruct (Z.eqb_spec (key r) id) as [Heq|Hneq]; cbn [negb find].
  - destruct (Z.eqb_spec (key r) id') as [Heq'|_]; [congruence | exact IH].
  - destruct (key r =? id'); [reflexivity | exact IH].
Qed.

Lemma session_get_unique {R : Type} (key : R -> Z) (table : list R) (r : R) :
  NoDup (map key table) -> In r table -> session_get key table (key r) = Some r.
Proof.
  unfold session_get.
  induction table as [|x rest IH]; cbn [map find In]; [intros _ []|].
  intros Hnd Hin. inversion Hnd as [|k ks Hnotin Hnd']; subst.
  destruct Hin as [->|Hin]; [rewrite Z.eqb_refl; reflexivity|].
  destruct (Z.eqb_spec (key x) (key r)) as [Heq|_]; [|exact (IH Hnd' Hin)].
  exfalso. apply Hnotin. rewrite Heq. apply in_map. exact Hin.
Qed.

Lemma session_get_in_keys {R : Type} (key : R -> Z) (table : list R) (id : Z) :
  session_get key table id <> None <-> In id (map key table).
Proof.
  split.
  - destruct (session_get key table id) as [r|] eqn:Hget; [|congruence].
    intros _. apply session_get_key in Hget. destruct Hget as [Hin <-].
    apply in_map. exact Hin.
  - intros Hin Hnone. apply in_map_iff in Hin. destruct Hin as [r [Hk Hin]].
    unfold session_get in Hnone.
    apply (find_none _ _ Hnone) in Hin. cbn in Hin.
    rewrite Hk, Z.eqb_refl in Hin. discriminate.
Qed.

(** ** DELETE *)

Lemma delete_product_stored (s : Store) (id : Z) (product : Product.t) :
  session_get Product.id (products s) id = Some product ->
  delete_product s id
  = (with_products s
       (filter (fun p => negb (Product.id p =? id)) (products s))
       (filter (fun link => negb (snd link =? id)) (order_product s)),
     respond (message_body ("Successfully deleted product " ++ str_of_int id)) 200).
Proof.
  intros Hget. pose proof (session_get_key _ _ _ _ Hget) as [_ Hid].
  unfold delete_product. rewrite (db_session_get_product s id product Hget).
  cbn [commit_delete_product]. rewrite Hid. reflexivity.
Qed.

Lemma delete_user_stored (s : Store) (id : Z) (user : User.t) :
  session_get User.id (users s) id = Some user ->
  (forall o, In o (orders s) -> Order.user_id o <> id) ->
  delete_user s id
  = (with_users s (filter (fun u => negb (User.id u =? id)) (users s)),
     respond (message_body ("Successfully deleted user " ++ str_of_int id)) 200).
Proof.
  intros Hget Hfree. pose proof (session_get_key _ _ _ _ Hget) as [_ Hid].
  assert (Hno : existsb (fun o => Order.user_id o =? User.id user) (orders s) = false).
  { rewrite Hid. destruct (existsb _ (orders s)) eqn:Hex; [|reflexivity].
    apply existsb_exists in Hex. destruct Hex as [o [Hin Heq]].
    apply Z.eqb_eq in Heq. exfalso. exact (Hfree o Hin Heq). }
  unfold delete_user. rewrite (db_session_get_user s id user Hget).
  unfold commit_delete_user. rewrite Hno, Hid. reflexivity.
Qed.

(** X1.  DELETE /products/{id} of a stored product answers 200 with the
    message that names the id; after it GET /products/{id} and a second
    DELETE answer 404 "Product not found". *)
Theorem delete_product_then_get_product (s : Store) (id : Z) (product : Product.t) :
  session_get Product.id (products s) id = Some product ->
  snd (delete_product s id)
  = Returned {| resp_body :=
                  Json (JDict [("message",
                                JStr ("Successfully deleted product " ++ str_of_int id))]);
                status := 200 |}
  /\ get_product (fst (delete_product s id)) id
     = (fst (delete_product s id),
        Returned {| resp_body := Json (JDict [("message", JStr "Product not found")]);
                    status := 404 |})
  /\ delete_product (fst (delete_product s id)) id
     = (fst (delete_product s id),
        Returned {| resp_body := Json (JDict [("message", JStr "Product not found")]);
                    status := 404 |}).
Proof.
  intros Hget. destruct (session_get_key _ _ _ _ Hget) as [Hin Hid].
  assert (Hrange : in_int64 id = true).
  { rewrite <- Hid. exact (products_in_range s product Hin). }
  rewrite (delete_product_stored s id product Hget). cbn [fst snd].
  split; [reflexivity|].
  set (s' := with_products s _ _).
  assert (Hnone : db_session_get Product.id (products s') id = Ok None).
  { unfold db_session_get, s'.
    rewrite Hrange, (proj1 (delete_product_tables s id)), session_get_filter_same.
    reflexivity. }
  unfold get_product, delete_product. rewrite Hnone. split; reflexivity.
Qed.

Lemma delete_product_then_get_product_witness :
  session_get Product.id (products shop_store) 1 = Some pen
  /\ get_product (fst (delete_product shop_store 1)) 1
     = (fst (delete_product shop_store 1),
        Returned {| resp_body := Json (JDict [("message", JStr "Product not found")]);
                    status := 404 |}).
Proof.
  split; [reflexivity|].
  exact (proj1 (proj2 (delete_product_then_get_product shop_store 1 pen eq_refl))).
Defined.



(** X3.  DELETE /users/{id} of a stored user that no order names answers
    200 with the message that names the id; after it GET /users/{id} answers
    404, every other user id is looked up as before, and the orders, the
    products and [order_product] are as they were. *)
Theorem delete_user_then_get_user (s : Store) (id : Z) (user : User.t) :
  session_get User.id (users s) id = Some user ->
  (forall o, In o (orders s) -> Order.user_id o <> id) ->
  snd (delete_user s id)
  = Returned {| resp_body :=
                  Json (JDict [("message",
                                JStr ("Successfully deleted user " ++ str_of_int id))]);
                status := 200 |}
  /\ get_user (fst (delete_user s id)) id
     = (fst (delete_user s id),
        Returned {| resp_body := Json (JDict [("message", JStr "User not found")]);
                    status := 404 |})
  /\ (forall id', id' <> id ->
        session_get User.id (users (fst (delete_user s id))) id'
        = session_get User.id (users s) id')
  /\ orders (fst (delete_user s id)) = orders s
  /\ products (fst (delete_user s id)) = products s
  /\ order_product (fst (delete_user s id)) = order_product s.
Proof.
  intros Hget Hfree. destruct (session_get_key _ _ _ _ Hget) as [Hin Hid].
  assert (Hrange : in_int64 id = true).
  { rewrite <- Hid. exact (users_in_range s user Hin). }
  rewrite (delete_user_stored s id user Hget Hfree). cbn [fst snd].
  split; [reflexivity|].
  destruct (with_users_rest s (filter (fun u => negb (User.id u =? id)) (users s)))
    as [Horders [Hproducts Hlinks]].
  split; [|split; [|split; [exact Horders | split; [exact Hproducts | exact Hlinks]]]].
  - unfold get_user, db_session_get.
    rewrite Hrange, (delete_user_table s id), session_get_filter_same. reflexivity.
  - intros id' Hne. rewrite (delete_user_table s id).
    apply session_get_filter_other. exact Hne.
Qed.

Lemma delete_user_then_get_user_witness :
  session_get User.id (users shop_store) 2 = Some bob
  /\ (forall o, In o (orders shop_store) -> Order.user_id o <> 2)
  /\ get_user (fst (delete_user shop_store 2)) 2
     = (fst (delete_user shop_store 2),
        Returned {| resp_body := Json (JDict [("message", JStr "User not found")]);
                    status := 404 |}).
Proof.
  assert (Hfree : forall o, In o (orders shop_store) -> Order.user_id o <> 2).
  { intros o [Ho|[]]. rewrite <- Ho. discriminate. }
  split; [reflexivity|]. split; [exact Hfree|].
  exact (proj1 (proj2 (delete_user_then_get_user shop_store 2 bob eq_refl Hfree))).
Defined.

(** X4.  DELETE /users/{id} of a stored user that an order names deletes
    nothing: the flush raises IntegrityError, which the handler does not
    catch (lines 175-176), so the response is 500 and the store is as it
    was. *)
Theorem delete_user_with_order (s : Store) (id : Z) (user : User.t) (o : Order.t) :
  session_get User.id (users s) id = Some user ->
  In o (orders s) ->
  Order.user_id o = id ->
  delete_user s id = (s, Unhandled IntegrityError)
  /\ http_status (snd (delete_user s id)) = 500.
Proof.
  intros Hget Hin Ho. pose proof (session_get_key _ _ _ _ Hget) as [_ Hid].
  assert (Hex : existsb (fun o => Order.user_id o =? User.id user) (orders s) = true).
  { apply existsb_exists. exists o. split; [exact Hin|].
    rewrite Ho, Hid. apply Z.eqb_refl. }
  unfold delete_user. rewrite (db_session_get_user s id user Hget).
  unfold commit_delete_user. rewrite Hex. split; reflexivity.
Qed.

Lemma delete_user_with_order_witness :
  session_get User.id (users shop_store) 1 = Some ann
  /\ In ann_order (orders shop_store)
  /\ delete_user shop_store 1 = (shop_store, Unhandled IntegrityError).
Proof.
  split; [reflexivity|]. split; [left; reflexivity|].
  exact (proj1 (delete_user_with_order shop_store 1 ann ann_order eq_refl
                  (or_introl eq_refl) eq_refl)).
Defined.

(** ** Foreign keys *)

Lemma handle_not_delete `{Library} (s : Store) (r : request) :
  (forall id, r <> DELETE_user id) ->
  (forall id, r <> DELETE_product id) ->
  fst (handle s r) = s.
Proof.
  intros Hu Hp.
  destruct r as [|id|j|id j|id| |id|j|id j|id]; cbn [handle].
  - reflexivity.
  - unfold get_user.
    destruct (db_session_get User.id (users s) id) as [[user|]|e]; reflexivity.
  - rewrite create_user_eq. reflexivity.
  - rewrite update_user_eq. reflexivity.
  - exfalso. exact (Hu id eq_refl).
  - reflexivity.
  - unfold get_product.
    destruct (db_session_get Product.id (products s) id) as [[product|]|e]; reflexivity.
  - rewrite create_product_eq. reflexivity.
  - rewrite update_product_eq. reflexivity.
  - exfalso. exact (Hp id eq_refl).
Qed.

(** X5.  No request breaks a foreign key: when every order names a stored
    user and every pair of [order_product] joins a stored order and a stored
    product, the same holds after any request.  DELETE /users refuses a
    user that has orders, and DELETE /products takes the product's pairs
    with it. *)
Theorem handle_keeps_references `{Library} (s : Store) (r : request) :
  references_hold s -> references_hold (fst (handle s r)).
Proof.
  intros [Horders Hlinks].
  destruct r as [|id|j|id j|id| |id|j|id j|id];
    try (rewrite handle_not_delete by discriminate; split; assumption).
  - cbn [handle]. unfold delete_user.
    destruct (db_session_get User.id (users s) id) as [[user|]|e];
      [|split; assumption..].
    unfold commit_delete_user.
    destruct (existsb _ (orders s)) eqn:Hex; [split; assumption|].
    cbn [fst]. unfold references_hold.
    destruct (with_users_rest s
                (filter (fun u => negb (User.id u =? User.id user)) (users s)))
      as [-> [-> ->]].
    rewrite (delete_user_table s (User.id user)).
    split; [|exact Hlinks].
    intros o Hin. destruct (Horders o Hin) as [u [Hu Hid]].
    exists u. split; [|exact Hid].
    apply filter_In. split; [exact Hu|].
    apply negb_true_iff, Z.eqb_neq. intros Heq.
    assert (Htrue : existsb (fun o => Order.user_id o =? User.id user) (orders s) = true).
    { apply existsb_exists. exists o. split; [exact Hin|].
      apply Z.eqb_eq. congruence. }
    congruence.
  - cbn [handle]. unfold delete_product.
    destruct (db_session_get Product.id (products s) id) as [[product|]|e];
      [|split; assumption..].
    cbn [commit_delete_product fst]. unfold references_hold.
    destruct (with_products_rest s
                (filter (fun p => negb (Product.id p =? Product.id product)) (products s))
                (filter (fun link => negb (snd link =? Product.id product))
                   (order_product s)))
      as [-> ->].
    destruct (delete_product_tables s (Product.id product)) as [-> ->].
    split; [exact Horders|].
    intros link Hin. apply filter_In in Hin. destruct Hin as [Hin Hne].
    destruct (Hlinks link Hin) as [Ho [p [Hp Hid]]].
    split; [exact Ho|]. exists p. split; [|exact Hid].
    apply filter_In. split; [exact Hp|]. rewrite Hid. exact Hne.
Qed.

Lemma shop_store_references : references_hold shop_store.
Proof.
  split.
  - intros o [Ho|[]]. exists ann. subst o. split; [left; reflexivity | reflexivity].
  - intros link [Hl|[]]. subst link. split.
    + exists ann_order. split; [left; reflexivity | reflexivity].
    + exists pen. split; [left; reflexivity | reflexivity].
Defined.

Lemma handle_keeps_references_witness :
  references_hold shop_store
  /\ references_hold (fst (@handle sample_library shop_store (DELETE_product 1)))
  /\ references_hold (fst (@handle sample_library shop_store (DELETE_user 1))).
Proof.
  split; [exact shop_store_references|]. split.
  - exact (@handle_keeps_references sample_library shop_store (DELETE_product 1)
             shop_store_references).
  - exact (@handle_keeps_references sample_library shop_store (DELETE_user 1)
             shop_store_references).
Defined.

(** ** GET *)

(** X6.  GET /users/{id} answers 200 exactly for the ids of the stored
    users; under the primary key it returns the id, name, address and email
    of the stored user with status 200; what it returns with 200 is an
    entry of what GET /users lists, which has one entry per stored user; and
    neither request changes the store. *)
Theorem get_user_agrees_with_get_users (s : Store) :
  (forall id, http_status (snd (get_user s id)) = 200 <-> In id (map User.id (users s)))
  /\ (forall u, NoDup (map User.id (users s)) -> In u (users s) ->
        get_user s (User.id u)
        = (s, Returned {| resp_body :=
                            Json (JDict [("address", JStr (User.address u));
                                         ("email", JStr (User.email u));
                                         ("id", JInt (User.id u));
                                         ("name", JStr (User.name u))]);
                          status := 200 |}))
  /\ (exists l, get_users s = (s, Returned {| resp_body := Json (JList l); status := 200 |})
                /\ List.length l = List.length (users s)
                /\ forall id j, snd (get_user s id) = respond (Json j) 200 -> In j l)
  /\ (forall id, fst (get_user s id) = s).
Proof.
  split; [|split; [|split]].
  - intros id. rewrite <- session_get_in_keys. unfold get_user.
    destruct (session_get User.id (users s) id) as [u|] eqn:Hget.
    + rewrite (db_session_get_user s id u Hget). cbn. split; congruence || discriminate.
    + unfold db_session_get. rewrite Hget.
      destruct (in_int64 id); cbn; split; congruence || discriminate.
  - intros u Hnd Hin. unfold get_user.
    rewrite (db_session_get_user s _ u (session_get_unique User.id (users s) u Hnd Hin)).
    reflexivity.
  - exists (map dump_user (users s)). split; [reflexivity|].
    split; [apply List.length_map|].
    intros id j. unfold get_user.
    destruct (db_session_get User.id (users s) id) as [[u|]|e] eqn:Hget;
      [|discriminate..].
    intros Heq. inversion Heq. apply in_map.
    apply db_session_get_key in Hget.
    exact (proj1 (session_get_key _ _ _ _ Hget)).
  - intros id. unfold get_user.
    destruct (db_session_get User.id (users s) id) as [[u|]|e]; reflexivity.
Qed.

(** X7.  GET /products/{id} answers 200 exactly for the ids of the stored
    products; under the primary key it returns the id, name and price of
    the stored product; what it returns with 200 is an entry of what GET
    /products lists, which has one entry per stored product; and neither
    request changes the store. *)
Theorem get_product_agrees_with_get_products (s : Store) :
  (forall id, http_status (snd (get_product s id)) = 200
              <-> In id (map Product.id (products s)))
  /\ (forall p, NoDup (map Product.id (products s)) -> In p (products s) ->
        get_product s (Product.id p)
        = (s, Returned {| resp_body :=
                            Json (JDict [("id", JInt (Product.id p));
                                         ("name", JStr (Product.name p));
                                         ("price", JFloat (Product.price p))]);
                          status := 200 |}))
  /\ (exists l, get_products s
                = (s, Returned {| resp_body := Json (JList l); status := 200 |})
                /\ List.length l = List.length (products s)
                /\ forall id j, snd (get_product s id) = respond (Json j) 200 -> In j l)
  /\ (forall id, fst (get_product s id) = s).
Proof.
  split; [|split; [|split]].
  - intros id. rewrite <- session_get_in_keys. unfold get_product.
    destruct (session_get Product.id (products s) id) as [p|] eqn:Hget.
    + rewrite (db_session_get_product s id p Hget). cbn. split; congruence || discriminate.
    + unfold db_session_get. rewrite Hget.
      destruct (in_int64 id); cbn; split; congruence || discriminate.
  - intros p Hnd Hin. unfold get_product.
    rewrite (db_session_get_product s _ p (session_get_unique Product.id (products s) p Hnd Hin)).
    reflexivity.
  - exists (map dump_product (products s)). split; [reflexivity|].
    split; [apply List.length_map|].
    intros id j. unfold get_product.
    destruct (db_session_get Product.id (products s) id) as [[p|]|e] eqn:Hget;
      [|discriminate..].
    intros Heq. inversion Heq. apply in_map.
    apply db_session_get_key in Hget.
    exact (proj1 (session_get_key _ _ _ _ Hget)).
  - intros id. unfold get_product.
    destruct (db_session_get Product.id (products s) id) as [[p|]|e]; reflexivity.
Qed.

(** ** Validation errors *)

Lemma user_deserialize_error `{Library} (partial : bool) (d : list (string * json))
    (key : string) (msgs : list message) :
  In (key, msgs)
     (field_errors "id" (deserialize false partial Integer_field (dict_get d "id"))
      ++ field_errors "name"
           (deserialize true partial (String_field 1 80) (dict_get d "name"))
      ++ field_errors "address"
           (deserialize true partial (String_field 1 255) (dict_get d "address"))
      ++ field_errors "email" (deserialize true partial Email_field (dict_get d "email"))
      ++ unknown_errors UserSchema.fields d)%list ->
  exists e, UserSchema._deserialize partial (JDict d) = inl e /\ In (key, msgs) e.
Proof.
  cbn [UserSchema._deserialize]. set (errs := (_ ++ _)%list).
  destruct errs as [|x rest]; [intros []|].
  intros Hin. exists (x :: rest). split; [reflexivity | exact Hin].
Qed.

Lemma product_deserialize_error `{Library} (partial : bool) (d : list (string * json))
    (key : string) (msgs : list message) :
  In (key, msgs)
     (field_errors "id" (deserialize false partial Integer_field (dict_get d "id"))
      ++ field_errors "name"
           (deserialize true partial (String_field 1 120) (dict_get d "name"))
      ++ field_errors "price"
           (deserialize true partial (Float_field 0.01) (dict_get d "price"))
      ++ unknown_errors ProductSchema.fields d)%list ->
  exists e, ProductSchema._deserialize partial (JDict d) = inl e /\ In (key, msgs) e.
Proof.
  cbn [ProductSchema._deserialize]. set (errs := (_ ++ _)%list).
  destruct errs as [|x rest]; [intros []|].
  intros Hin. exists (x :: rest). split; [reflexivity | exact Hin].
Qed.

Lemma unknown_errors_intro (fields : list string) (d : list (string * json))
    (k : string) :
  In k (dict_keys d) -> ~ In k fields -> In (k, [Msg_unknown]) (unknown_errors fields d).
Proof.
  intros Hin Hnot. unfold unknown_errors.
  apply (in_map (fun k => (k, [Msg_unknown]))).
  apply filter_In. split; [exact Hin|].
  apply negb_true_iff. destruct (mem_str k fields) eqn:Hmem; [|reflexivity].
  exfalso. apply Hnot. clear Hnot Hin.
  induction fields as [|f rest IH]; cbn [mem_str] in Hmem; [discriminate|].
  apply orb_true_iff in Hmem. destruct Hmem as [Heq|Hmem].
  - left. symmetry. now apply String.eqb_eq.
  - right. exact (IH Hmem).
Qed.

(** What the two POST handlers and, for a stored id, the two PUT handlers
    answer to a payload the schema refuses. *)
Lemma user_refused `{Library} (s : Store) (j : json) (e : messages) :
  UserSchema._deserialize false j = inl e ->
  create_user s j = (s, respond (Messages e) 400).
Proof. intros He. rewrite create_user_eq, He. reflexivity. Qed.

Lemma user_update_refused `{Library} (s : Store) (id : Z) (user : User.t) (j : json)
    (e : messages) :
  session_get User.id (users s) id = Some user ->
  UserSchema._deserialize true j = inl e ->
  update_user s id j = (s, respond (Messages e) 400).
Proof.
  intros Hget He.
  rewrite update_user_eq, (db_session_get_user s id user Hget), He. reflexivity.
Qed.

Lemma product_refused `{Library} (s : Store) (j : json) (e : messages) :
  ProductSchema._deserialize false j = inl e ->
  create_product s j = (s, respond (Messages e) 400).
Proof. intros He. rewrite create_product_eq, He. reflexivity. Qed.

Lemma product_update_refused `{Library} (s : Store) (id : Z) (product : Product.t)
    (j : json) (e : messages) :
  session_get Product.id (products s) id = Some product ->
  ProductSchema._deserialize true j = inl e ->
  update_product s id j = (s, respond (Messages e) 400).
Proof.
  intros Hget He.
  rewrite update_product_eq, (db_session_get_product s id product Hget), He.
  reflexivity.
Qed.

(** X8.  POST /users and POST /products with a dict that lacks a required
    field answer 400, the body holding "Missing data for required field."
    under that field, and store nothing. *)
Theorem post_missing_required_field `{Library} (s : Store) (d : list (string * json))
    (field : string) :
  dict_get d field = None ->
  (In field ["name"; "address"; "email"] ->
   exists e, create_user s (JDict d) = (s, respond (Messages e) 400)
             /\ In (field, [Msg_required]) e)
  /\ (In field ["name"; "price"] ->
      exists e, create_product s (JDict d) = (s, respond (Messages e) 400)
                /\ In (field, [Msg_required]) e).
Proof.
  intros Habs. split; intros Hfield.
  - destruct (user_deserialize_error false d field [Msg_required]) as [e [He Hin]].
    + rewrite !in_app_iff.
      destruct Hfield as [<-|[<-|[<-|[]]]]; rewrite Habs;
        cbn [deserialize andb negb field_errors In]; tauto.
    + exists e. split; [exact (user_refused s _ e He) | exact Hin].
  - destruct (product_deserialize_error false d field [Msg_required]) as [e [He Hin]].
    + rewrite !in_app_iff.
      destruct Hfield as [<-|[<-|[]]]; rewrite Habs;
        cbn [deserialize andb negb field_errors In]; tauto.
    + exists e. split; [exact (product_refused s _ e He) | exact Hin].
Qed.

Lemma post_missing_required_field_witness :
  dict_get [("address", JStr "1 Main St")] "name" = None
  /\ exists e, @create_user sample_library ann_store (JDict [("address", JStr "1 Main St")])
               = (ann_store, respond (Messages e) 400)
               /\ In ("name", [Msg_required]) e.
Proof.
  split; [reflexivity|].
  exact (proj1 (@post_missing_required_field sample_library ann_store
                  [("address", JStr "1 Main St")] "name" eq_refl)
               (or_introl eq_refl)).
Defined.

(** X9.  An email that is a string without "@" (the empty string among
    them) is refused whatever the regular expressions say: POST /users, and
    PUT /users/{id} for a stored id, answer 400 with "Not a valid email
    address." under [email], and the store is as it was. *)
Theorem email_without_at_refused `{Library} (s : Store) (d : list (string * json))
    (address : string) :
  dict_get d "email" = Some (JStr address) ->
  str_contains "@"%char address = false ->
  (exists e, create_user s (JDict d) = (s, respond (Messages e) 400)
             /\ In ("email", [Msg_invalid_email]) e)
  /\ (forall id user, session_get User.id (users s) id = Some user ->
        exists e, update_user s id (JDict d) = (s, respond (Messages e) 400)
                  /\ In ("email", [Msg_invalid_email]) e).
Proof.
  intros Hget Hat.
  assert (Herr : forall partial,
             exists e, UserSchema._deserialize partial (JDict d) = inl e
                       /\ In ("email", [Msg_invalid_email]) e).
  { intros partial. apply user_deserialize_error. rewrite !in_app_iff, Hget.
    cbn [deserialize Email_field]. unfold Email_validator.
    rewrite Hat, andb_false_r. cbn [andb field_errors In]. tauto. }
  split.
  - destruct (Herr false) as [e [He Hin]]. exists e.
    split; [exact (user_refused s _ e He) | exact Hin].
  - intros id user Hu. destruct (Herr true) as [e [He Hin]]. exists e.
    split; [exact (user_update_refused s id user _ e Hu He) | exact Hin].
Qed.

Lemma email_without_at_refused_witness :
  dict_get [("email", JStr "ann.example.com")] "email" = Some (JStr "ann.example.com")
  /\ str_contains "@"%char "ann.example.com" = false
  /\ exists e, @update_user sample_library ann_store 1
                 (JDict [("email", JStr "ann.example.com")])
               = (ann_store, respond (Messages e) 400)
               /\ In ("email", [Msg_invalid_email]) e.
Proof.
  split; [reflexivity|]. split; [reflexivity|].
  exact (proj2 (@email_without_at_refused sample_library ann_store
                  [("email", JStr "ann.example.com")] "ann.example.com"
                  eq_refl eq_refl) 1 ann eq_refl).
Defined.

(** X10.  A name or an address that is a string outside the Length bounds of
    its field (1 to 80 for a user's name, 1 to 255 for the address, 1 to 120
    for a product's name) is refused: the POST handler, and the PUT handler
    for a stored id, answer 400 with the Length message under that field and
    leave the store as it was. *)
Theorem string_out_of_bounds_refused `{Library} (s : Store) (d : list (string * json))
    (field text : string) :
  dict_get d field = Some (JStr text) ->
  (forall max, In (field, max) [("name", 80%nat); ("address", 255%nat)] ->
     (String.length text < 1 \/ max < String.length text)%nat ->
     (exists e, create_user s (JDict d) = (s, respond (Messages e) 400)
                /\ In (field, [Msg_length 1 max]) e)
     /\ (forall id user, session_get User.id (users s) id = Some user ->
           exists e, update_user s id (JDict d) = (s, respond (Messages e) 400)
                     /\ In (field, [Msg_length 1 max]) e))
  /\ (field = "name" ->
      (String.length text < 1 \/ 120 < String.length text)%nat ->
      (exists e, create_product s (JDict d) = (s, respond (Messages e) 400)
                 /\ In (field, [Msg_length 1 120]) e)
      /\ (forall id product, session_get Product.id (products s) id = Some product ->
            exists e, update_product s id (JDict d) = (s, respond (Messages e) 400)
                      /\ In (field, [Msg_length 1 120]) e)).
Proof.
  intros Hget.
  assert (Hfield : forall min max,
             (String.length text < min \/ max < String.length text)%nat ->
             String_field min max (JStr text) = inl [Msg_length min max]).
  { intros min max Hout. cbn [String_field].
    destruct (Nat.ltb_spec (String.length text) min) as [_|Hmin]; [reflexivity|].
    destruct (Nat.ltb_spec max (String.length text)) as [_|Hmax]; [reflexivity|].
    lia. }
  split.
  - intros max Hin Hout.
    assert (Herr : forall partial,
               exists e, UserSchema._deserialize partial (JDict d) = inl e
                         /\ In (field, [Msg_length 1 max]) e).
    { intros partial. apply user_deserialize_error. rewrite !in_app_iff.
      destruct Hin as [Heq|[Heq|[]]]; inversion Heq; subst field max;
        rewrite Hget; cbn [deserialize]; rewrite (Hfield _ _ Hout);
        cbn [field_errors In]; tauto. }
    split.
    + destruct (Herr false) as [e [He Hine]]. exists e.
      split; [exact (user_refused s _ e He) | exact Hine].
    + intros id user Hu. destruct (Herr true) as [e [He Hine]]. exists e.
      split; [exact (user_update_refused s id user _ e Hu He) | exact Hine].
  - intros -> Hout.
    assert (Herr : forall partial,
               exists e, ProductSchema._deserialize partial (JDict d) = inl e
                         /\ In ("name", [Msg_length 1 120]) e).
    { intros partial. apply product_deserialize_error. rewrite !in_app_iff.
      rewrite Hget. cbn [deserialize]. rewrite (Hfield _ _ Hout).
      cbn [field_errors In]. tauto. }
    split.
    + destruct (Herr false) as [e [He Hine]]. exists e.
      split; [exact (product_refused s _ e He) | exact Hine].
    + intros id product Hp. destruct (Herr true) as [e [He Hine]]. exists e.
      split; [exact (product_update_refused s id product _ e Hp He) | exact Hine].
Qed.

Lemma string_out_of_bounds_refused_witness :
  dict_get [("name", JStr "")] "name" = Some (JStr "")
  /\ exists e, @create_product sample_library pen_store (JDict [("name", JStr "")])
               = (pen_store, respond (Messages e) 400)
               /\ In ("name", [Msg_length 1 120]) e.
Proof.
  split; [reflexivity|].
  exact (proj1 (proj2 (@string_out_of_bounds_refused sample_library pen_store
                         [("name", JStr "")] "name" "" eq_refl)
                      eq_refl (or_introl (Nat.lt_0_succ 0)))).
Defined.

(** X11.  A price that is a float below 0.01, nan or an infinity is
    refused: POST /products, and PUT /products/{id} for a stored id, answer
    400 with the Range message (or the message for special values) under
    [price], and leave the store as it was. *)
Theorem price_refused `{Library} (s : Store) (d : list (string * json)) (x : float) :
  dict_get d "price" = Some (JFloat x) ->
  is_special x = true \/ PrimFloat.ltb x 0.01 = true ->
  (exists e, create_product s (JDict d) = (s, respond (Messages e) 400)
             /\ In ("price", [if is_special x then Msg_special else Msg_range_min 0.01]) e)
  /\ (forall id product, session_get Product.id (products s) id = Some product ->
        exists e, update_product s id (JDict d) = (s, respond (Messages e) 400)
                  /\ In ("price",
                         [if is_special x then Msg_special else Msg_range_min 0.01]) e).
Proof.
  intros Hget Hbad.
  assert (Hfield : Float_field 0.01 (JFloat x)
                   = inl [if is_special x then Msg_special else Msg_range_min 0.01]).
  { cbn [Float_field]. destruct (is_special x); [reflexivity|].
    destruct Hbad as [Hs|Hlt]; [discriminate|].
    unfold Range_validator. rewrite Hlt. reflexivity. }
  assert (Herr : forall partial,
             exists e, ProductSchema._deserialize partial (JDict d) = inl e
                       /\ In ("price",
                              [if is_special x then Msg_special else Msg_range_min 0.01]) e).
  { intros partial. apply product_deserialize_error. rewrite !in_app_iff, Hget.
    cbn [deserialize]. rewrite Hfield. cbn [field_errors In]. tauto. }
  split.
  - destruct (Herr false) as [e [He Hine]]. exists e.
    split; [exact (product_refused s _ e He) | exact Hine].
  - intros id product Hp. destruct (Herr true) as [e [He Hine]]. exists e.
    split; [exact (product_update_refused s id product _ e Hp He) | exact Hine].
Qed.

Lemma price_refused_witness :
  dict_get [("price", JFloat 0.009)] "price" = Some (JFloat 0.009)
  /\ PrimFloat.ltb 0.009 0.01 = true
  /\ exists e, @update_product sample_library pen_store 1 (JDict [("price", JFloat 0.009)])
               = (pen_store, respond (Messages e) 400)
               /\ In ("price", [Msg_range_min 0.01]) e.
Proof.
  split; [reflexivity|]. split; [reflexivity|].
  exact (proj2 (@price_refused sample_library pen_store [("price", JFloat 0.009)]
                  0.009%float eq_refl (or_intror eq_refl)) 1 pen eq_refl).
Defined.

(** X12.  A payload that is no dict, or a dict with a key that is no field
    of the schema, is refused by the POST handlers with 400: "Invalid input
    type." under [_schema], or "Unknown field." under the key; nothing is
    stored. *)
Theorem post_payload_shape_refused `{Library} (s : Store) :
  (forall j, (forall d, j <> JDict d) ->
     create_user s j = (s, respond (Messages [("_schema", [Msg_input_type])]) 400)
     /\ create_product s j = (s, respond (Messages [("_schema", [Msg_input_type])]) 400))
  /\ (forall d k, In k (dict_keys d) ->
        (~ In k ["id"; "name"; "address"; "email"] ->
         exists e, create_user s (JDict d) = (s, respond (Messages e) 400)
                   /\ In (k, [Msg_unknown]) e)
        /\ (~ In k ["id"; "name"; "price"] ->
            exists e, create_product s (JDict d) = (s, respond (Messages e) 400)
                      /\ In (k, [Msg_unknown]) e)).
Proof.
  split.
  - intros j Hnot. rewrite create_user_eq, create_product_eq.
    destruct j as [| | | | | |d]; try (split; reflexivity).
    exfalso. exact (Hnot d eq_refl).
  - intros d k Hk. split; intros Hnot.
    + destruct (user_deserialize_error false d k [Msg_unknown]) as [e [He Hin]].
      * rewrite !in_app_iff. do 4 right.
        exact (unknown_errors_intro UserSchema.fields d k Hk Hnot).
      * exists e. split; [exact (user_refused s _ e He) | exact Hin].
    + destruct (product_deserialize_error false d k [Msg_unknown]) as [e [He Hin]].
      * rewrite !in_app_iff. do 3 right.
        exact (unknown_errors_intro ProductSchema.fields d k Hk Hnot).
      * exists e. split; [exact (product_refused s _ e He) | exact Hin].
Qed.

(** ** What an accepted payload holds *)

Lemma field_value_some {T : Type} (required partial : bool)
    (field : json -> list message + T) (raw : option json) (t : T) :
  field_value (deserialize required partial field raw) = Some t ->
  exists x, raw = Some x /\ field x = inr t.
Proof.
  destruct raw as [x|]; cbn [deserialize].
  - intros Hv. exists x. split; [reflexivity|].
    destruct x; cbn [field_value] in Hv; try discriminate;
      match type of Hv with
      | context [field ?v] =>
          destruct (field v); cbn [field_value] in Hv; [discriminate | congruence]
      end.
  - destruct (required && negb partial); discriminate.
Qed.

Lemma field_required {T : Type} (key : string) (field : json -> list message + T)
    (raw : option json) :
  field_errors key (deserialize true false field raw) = [] ->
  field_value (deserialize true false field raw) <> None.
Proof.
  destruct raw as [x|]; cbn [deserialize andb negb]; [|discriminate].
  destruct x; cbn [field_errors]; try discriminate;
    match goal with
    | |- context [field ?v] =>
        destruct (field v); cbn [field_errors field_value]; discriminate
    end.
Qed.

Lemma String_field_ok (min max : nat) (x : json) (t : string) :
  String_field min max x = inr t ->
  x = JStr t /\ (min <= String.length t <= max)%nat.
Proof.
  destruct x; cbn [String_field]; try discriminate.
  destruct (Nat.ltb_spec (String.length s) min); [discriminate|].
  destruct (Nat.ltb_spec max (String.length s)); [discriminate|].
  cbn [orb]. intros Heq. inversion Heq; subst. split; [reflexivity | lia].
Qed.

Lemma Email_field_ok `{Library} (x : json) (t : string) :
  Email_field x = inr t ->
  x = JStr t /\ str_contains "@"%char t = true /\ email_regex_ok t = true.
Proof.
  destruct x; cbn [Email_field]; try discriminate.
  destruct (Email_validator s) eqn:Hv; [|discriminate].
  intros Heq. inversion Heq; subst. split; [reflexivity|].
  unfold Email_validator in Hv.
  apply andb_true_iff in Hv. destruct Hv as [Hv Hre].
  apply andb_true_iff in Hv. destruct Hv as [_ Hat]. split; assumption.
Qed.

Lemma unknown_errors_nil (fields : list string) (d : list (string * json)) (k : string) :
  unknown_errors fields d = [] -> dict_get d k <> None -> In k fields.
Proof.
  intros Hnil Hget.
  assert (Hin : In k (dict_keys d)).
  { clear Hnil. induction d as [|[k' v] rest IH]; cbn [dict_get] in Hget; [congruence|].
    cbn [dict_keys map fst].
    destruct (String.eqb_spec k' k) as [->|_]; [left; reflexivity | right; exact (IH Hget)]. }
  destruct (in_dec string_dec k fields) as [Hyes|Hno]; [exact Hyes|].
  pose proof (unknown_errors_intro fields d k Hin Hno) as Hbad.
  rewrite Hnil in Hbad. destruct Hbad.
Qed.

(** On IEEE values: what is not nan and not below a positive finite value
    is at least that value. *)
Lemma SF_not_below (a : spec_float) (m0 : positive) (e0 : Z) :
  SFeqb a a = true ->
  SFltb a (S754_finite false m0 e0) = false ->
  SFleb (S754_finite false m0 e0) a = true.
Proof.
  unfold SFeqb, SFltb, SFleb.
  destruct a as [s|s| |s m e]; cbn [SFcompare].
  - discriminate.
  - destruct s; [discriminate | reflexivity].
  - discriminate.
  - intros _. destruct s; [discriminate|].
    rewrite (Z.compare_antisym e e0).
    destruct (e ?= e0)%Z; cbn [CompOpp]; [|discriminate|reflexivity].
    pose proof (Pos.compare_antisym m m0) as Hanti.
    unfold Pos.compare in Hanti. rewrite Hanti.
    destruct (PosDef.Pos.compare_cont Eq m m0); cbn [CompOpp];
      [reflexivity | discriminate | reflexivity].
Qed.

(** A float that is not nan and not below 0.01 is at least 0.01. *)
Lemma not_below_minimum (x : float) :
  PrimFloat.is_nan x = false ->
  PrimFloat.ltb x 0.01 = false ->
  PrimFloat.leb 0.01 x = true.
Proof.
  unfold PrimFloat.is_nan. rewrite eqb_spec, ltb_spec, leb_spec.
  assert (Hmin : Prim2SF 0.01 = S754_finite false 5764607523034235 (-59))
    by (vm_compute; reflexivity).
  rewrite Hmin. intros Hnan. apply SF_not_below.
  apply negb_false_iff. exact Hnan.
Qed.

Lemma Float_field_ok `{Library} (x : json) (t : float) :
  Float_field 0.01 x = inr t ->
  is_special t = false /\ PrimFloat.ltb t 0.01 = false /\ PrimFloat.leb 0.01 t = true.
Proof.
  assert (Hv : forall num,
             (if is_special num then inl [Msg_special]
              else if Range_validator 0.01 num then inr num
                   else inl [Msg_range_min 0.01]) = inr t ->
             is_special t = false /\ PrimFloat.ltb t 0.01 = false
             /\ PrimFloat.leb 0.01 t = true).
  { intros num. destruct (is_special num) eqn:Hs; [discriminate|].
    unfold Range_validator. destruct (PrimFloat.ltb num 0.01) eqn:Hlt; [discriminate|].
    cbn [negb]. intros Heq. inversion Heq; subst t.
    split; [exact Hs|]. split; [exact Hlt|].
    apply not_below_minimum; [|exact Hlt].
    unfold is_special in Hs. apply orb_false_iff in Hs. exact (proj1 Hs). }
  destruct x; cbn [Float_field]; try discriminate.
  - destruct (float_of_int n); [apply Hv | discriminate].
  - apply Hv.
  - destruct (float_of_str s); [apply Hv | discriminate].
Qed.

(** X13.  What [user_schema] accepts.  When the fields of a payload
    deserialize without error (full or partial load), the payload is a dict
    whose keys are fields of the schema; each of name, address and email
    that the data hold is the string of the payload, within its Length
    bounds (1 to 80, 1 to 255), the email holding "@" and matching the
    regular expressions; and a full load holds all three. *)
Theorem user_schema_accepts `{Library} (partial : bool) (j : json)
    (d : UserSchema.data) :
  UserSchema._deserialize partial j = inr d ->
  (exists items, j = JDict items)
  /\ (forall k, payload_get j k <> None -> In k ["id"; "name"; "address"; "email"])
  /\ (forall n, UserSchema.name d = Some n ->
        payload_get j "name" = Some (JStr n) /\ (1 <= String.length n <= 80)%nat)
  /\ (forall a, UserSchema.address d = Some a ->
        payload_get j "address" = Some (JStr a) /\ (1 <= String.length a <= 255)%nat)
  /\ (forall e, UserSchema.email d = Some e ->
        payload_get j "email" = Some (JStr e)
        /\ str_contains "@"%char e = true /\ email_regex_ok e = true)
  /\ (partial = false ->
      UserSchema.name d <> None /\ UserSchema.address d <> None
      /\ UserSchema.email d <> None).
Proof.
  destruct j as [| | | | | |items]; try discriminate.
  cbn [UserSchema._deserialize payload_get].
  set (errs := (_ ++ _)%list).
  destruct errs as [|x rest] eqn:Herrs; [|discriminate].
  unfold errs in Herrs. clear errs.
  apply app_eq_nil in Herrs. destruct Herrs as [_ Herrs].
  apply app_eq_nil in Herrs. destruct Herrs as [Hname Herrs].
  apply app_eq_nil in Herrs. destruct Herrs as [Haddress Herrs].
  apply app_eq_nil in Herrs. destruct Herrs as [Hemail Hunknown].
  intros Hd. inversion Hd; subst d. clear Hd.
  cbn [UserSchema.name UserSchema.address UserSchema.email].
  split; [exists items; reflexivity|].
  split; [intros k; exact (unknown_errors_nil UserSchema.fields items k Hunknown)|].
  split; [|split; [|split]].
  - intros n Hv. apply field_value_some in Hv. destruct Hv as [x [Hraw Hf]].
    apply String_field_ok in Hf. destruct Hf as [-> Hlen]. split; assumption.
  - intros a Hv. apply field_value_some in Hv. destruct Hv as [x [Hraw Hf]].
    apply String_field_ok in Hf. destruct Hf as [-> Hlen]. split; assumption.
  - intros e Hv. apply field_value_some in Hv. destruct Hv as [x [Hraw Hf]].
    apply Email_field_ok in Hf. destruct Hf as [-> Hok]. split; assumption.
  - intros ->. split; [|split].
    + exact (field_required "name" _ _ Hname).
    + exact (field_required "address" _ _ Haddress).
    + exact (field_required "email" _ _ Hemail).
Qed.

Lemma user_schema_accepts_witness :
  @UserSchema._deserialize sample_library false ann_payload
  = inr {| UserSchema.id := None; UserSchema.name := Some "Ann";
           UserSchema.address := Some "1 Main St";
           UserSchema.email := Some "ann@example.com" |}
  /\ exists items, ann_payload = JDict items.
Proof.
  split; [reflexivity|].
  exact (proj1 (@user_schema_accepts sample_library false ann_payload _ eq_refl)).
Defined.

(** X14.  What [product_schema] accepts.  When the fields of a payload
    deserialize without error (full or partial load), the payload is a dict
    whose keys are fields of the schema; the name the data hold is the string
    of the payload, of length 1 to 120; the price the data hold is a float
    that is neither nan nor an infinity and is at least 0.01; and a full
    load holds both. *)
Theorem product_schema_accepts `{Library} (partial : bool) (j : json)
    (d : ProductSchema.data) :
  ProductSchema._deserialize partial j = inr d ->
  (exists items, j = JDict items)
  /\ (forall k, payload_get j k <> None -> In k ["id"; "name"; "price"])
  /\ (forall n, ProductSchema.name d = Some n ->
        payload_get j "name" = Some (JStr n) /\ (1 <= String.length n <= 120)%nat)
  /\ (forall x, ProductSchema.price d = Some x ->
        payload_get j "price" <> None
        /\ is_special x = false
        /\ PrimFloat.ltb x 0.01 = false
        /\ PrimFloat.leb 0.01 x = true)
  /\ (partial = false ->
      ProductSchema.name d <> None /\ ProductSchema.price d <> None).
Proof.
  destruct j as [| | | | | |items]; try discriminate.
  cbn [ProductSchema._deserialize payload_get].
  set (errs := (_ ++ _)%list).
  destruct errs as [|x rest] eqn:Herrs; [|discriminate].
  unfold errs in Herrs. clear errs.
  apply app_eq_nil in Herrs. destruct Herrs as [_ Herrs].
  apply app_eq_nil in Herrs. destruct Herrs as [Hname Herrs].
  apply app_eq_nil in Herrs. destruct Herrs as [Hprice Hunknown].
  intros Hd. inversion Hd; subst d. clear Hd.
  cbn [ProductSchema.name ProductSchema.price].
  split; [exists items; reflexivity|].
  split; [intros k; exact (unknown_errors_nil ProductSchema.fields items k Hunknown)|].
  split; [|split].
  - intros n Hv. apply field_value_some in Hv. destruct Hv as [x [Hraw Hf]].
    apply String_field_ok in Hf. destruct Hf as [-> Hlen]. split; assumption.
  - intros x Hv. apply field_value_some in Hv. destruct Hv as [raw [Hraw Hf]].
    split; [rewrite Hraw; discriminate | exact (Float_field_ok raw x Hf)].
  - intros ->. split.
    + exact (field_required "name" _ _ Hname).
    + exact (field_required "price" _ _ Hprice).
Qed.

Lemma product_schema_accepts_witness :
  @ProductSchema._deserialize sample_library true (JDict [("price", JInt 3)])
  = inr {| ProductSchema.id := None; ProductSchema.name := None;
           ProductSchema.price := Some 3%float |}
  /\ exists items, JDict [("price", JInt 3)] = JDict items.
Proof.
  split; [vm_compute; reflexivity|].
  exact (proj1 (@product_schema_accepts sample_library true
                  (JDict [("price", JInt 3)]) _ (eq_refl
                     (inr {| ProductSchema.id := None; ProductSchema.name := None;
                             ProductSchema.price := Some 3%float |})))).
Defined.

(** ** PUT /products *)

(** X15.  PUT /products/{id} never writes.  Whatever the id and the payload
    the store is as it was and the status is 404, 400 or 500: 404 exactly
    when the id fits a signed 64-bit integer and no product has it, 500
    with OverflowError when the id does not fit; for a stored id a payload
    that passes the partial validation leaves the handler with an exception,
    as a new price for the Pen does. *)
Theorem update_product_never_writes `{Library} (s : Store) (id : Z) (j : json) :
  fst (update_product s id j) = s
  /\ (http_status (snd (update_product s id j)) = 404
      \/ http_status (snd (update_product s id j)) = 400
      \/ http_status (snd (update_product s id j)) = 500)
  /\ (http_status (snd (update_product s id j)) = 404
      <-> - 2 ^ 63 <= id < 2 ^ 63 /\ ~ In id (map Product.id (products s)))
  /\ (id < - 2 ^ 63 \/ 2 ^ 63 <= id ->
      update_product s id j = (s, Unhandled OverflowError))
  /\ (forall product d,
        session_get Product.id (products s) id = Some product ->
        ProductSchema._deserialize true j = inr d ->
        exists e, snd (update_product s id j) = Unhandled e)
  /\ update_product pen_store 1 (JDict [("price", JFloat 2.5)])
     = (pen_store, Unhandled TypeError)
  /\ update_product pen_store (2 ^ 63) (JDict [("price", JFloat 2.5)])
     = (pen_store, Unhandled OverflowError).
Proof.
  rewrite update_product_eq. cbn [fst snd].
  split; [reflexivity|]. split; [|split; [|split; [|split; [|split]]]].
  - destruct (db_session_get Product.id (products s) id) as [[product|]|e];
      [|left; reflexivity | right; right; reflexivity].
    destruct (ProductSchema._deserialize true j);
      [right; left; reflexivity | right; right; reflexivity].
  - rewrite <- session_get_in_keys, <- in_int64_iff.
    destruct (session_get Product.id (products s) id) as [product|] eqn:Hget.
    + rewrite (db_session_get_product s id product Hget).
      split; [|intros [_ Hno]; exfalso; apply Hno; discriminate].
      destruct (ProductSchema._deserialize true j); cbn; discriminate.
    + unfold db_session_get. rewrite Hget. destruct (in_int64 id); cbn.
      * split; [intros _; split; [reflexivity | intros Hno; exact (Hno eq_refl)]
               | reflexivity].
      * split; [discriminate | intros [Hf _]; discriminate].
  - intros Hout. unfold db_session_get. rewrite (in_int64_outside id Hout).
    reflexivity.
  - intros product d Hget ->. rewrite (db_session_get_product s id product Hget).
    eexists. reflexivity.
  - rewrite update_product_eq. vm_compute. reflexivity.
  - rewrite update_product_eq. vm_compute. reflexivity.
Qed.

(** ** The stores the API reaches *)

(** X16.  Through the API alone nothing is ever stored.  In every store that
    requests reach from the empty tables, GET /users and GET /products list
    nothing; every request that names an id that fits a signed 64-bit
    integer is answered 404, and every request that names an id that does
    not fit (2^63 or more) is answered 500. *)
Theorem api_stores_nothing `{Library} (s : Store) :
  reachable s ->
  s = empty_store
  /\ get_users s = (s, Returned {| resp_body := Json (JList []); status := 200 |})
  /\ get_products s = (s, Returned {| resp_body := Json (JList []); status := 200 |})
  /\ (forall id j, - 2 ^ 63 <= id < 2 ^ 63 ->
        http_status (snd (get_user s id)) = 404
        /\ http_status (snd (update_user s id j)) = 404
        /\ http_status (snd (delete_user s id)) = 404
        /\ http_status (snd (get_product s id)) = 404
        /\ http_status (snd (update_product s id j)) = 404
        /\ http_status (snd (delete_product s id)) = 404)
  /\ (forall id j, id < - 2 ^ 63 \/ 2 ^ 63 <= id ->
        http_status (snd (get_user s id)) = 500
        /\ http_status (snd (update_user s id j)) = 500
        /\ http_status (snd (delete_user s id)) = 500
        /\ http_status (snd (get_product s id)) = 500
        /\ http_status (snd (update_product s id j)) = 500
        /\ http_status (snd (delete_product s id)) = 500).
Proof.
  intros Hr. rewrite (reachable_empty s Hr).
  split; [reflexivity|]. split; [reflexivity|]. split; [reflexivity|]. split.
  - intros id j Hrange. apply in_int64_range in Hrange.
    unfold get_user, update_user, delete_user, get_product, update_product,
      delete_product, db_session_get.
    rewrite Hrange. repeat split.
  - intros id j Hout. apply in_int64_outside in Hout.
    unfold get_user, update_user, delete_user, get_product, update_product,
      delete_product, db_session_get.
    rewrite Hout. repeat split.
Qed.

Lemma api_stores_nothing_witness :
  @reachable sample_library
    (fst (@handle sample_library
            (fst (@handle sample_library empty_store (POST_users ann_payload)))
            (POST_products (pen_payload (JFloat 2.5)))))
  /\ fst (@handle sample_library
            (fst (@handle sample_library empty_store (POST_users ann_payload)))
            (POST_products (pen_payload (JFloat 2.5))))
     = empty_store.
Proof.
  assert (Hr : @reachable sample_library
                 (fst (@handle sample_library
                         (fst (@handle sample_library empty_store (POST_users ann_payload)))
                         (POST_products (pen_payload (JFloat 2.5)))))).
  { apply (@reachable_step sample_library). apply (@reachable_step sample_library).
    apply (@reachable_init sample_library). }
  split; [exact Hr|].
  exact (proj1 (@api_stores_nothing sample_library _ Hr)).
Defined.

(** ** OrderSchema *)

Lemma dict_get_some_key (d : list (string * json)) (k : string) :
  dict_get d k <> None -> In k (dict_keys d).
Proof.
  induction d as [|[k' v] rest IH]; cbn [dict_get]; [congruence|].
  cbn [dict_keys map fst].
  destruct (String.eqb_spec k' k) as [->|_]; [left; reflexivity | right; exact (IH H)].
Qed.

Lemma order_deserialize_error `{Library} (partial : bool) (d : list (string * json))
    (key : string) (msgs : list message) :
  In (key, msgs)
     (field_errors "id" (deserialize false partial Integer_field (dict_get d "id"))
      ++ field_errors "user_id"
           (deserialize true partial Integer_field (dict_get d "user_id"))
      ++ unknown_errors OrderSchema.fields d)%list ->
  exists e, OrderSchema._deserialize partial (JDict d) = inl e /\ In (key, msgs) e.
Proof.
  cbn [OrderSchema._deserialize]. set (errs := (_ ++ _)%list).
  destruct errs as [|x rest]; [intros []|].
  intros Hin. exists (x :: rest). split; [reflexivity | exact Hin].
Qed.

(** X17.  [order_schema.load]: a payload that holds [order_date] is refused
    with "Unknown field." under that key (the field is [dump_only]), one
    without [user_id] is refused with "Missing data for required field.";
    and what a load returns is an Order object with a [user_id] and no
    [id], never a dict. *)
Theorem order_schema_load `{Library} :
  (forall d v, dict_get d "order_date" = Some v ->
     exists e, load order_schema (JDict d) false = Raise (ValidationError e)
               /\ In ("order_date", [Msg_unknown]) e)
  /\ (forall d, dict_get d "user_id" = None ->
        exists e, load order_schema (JDict d) false = Raise (ValidationError e)
                  /\ In ("user_id", [Msg_required]) e)
  /\ (forall j x, load order_schema j false = Ok x ->
        exists n, x = AsInstance {| OrderSchema.id := None;
                                    OrderSchema.user_id := Some n |})
  /\ load order_schema (JDict [("user_id", JInt 1)]) false
     = Ok (AsInstance {| OrderSchema.id := None; OrderSchema.user_id := Some 1 |}).
Proof.
  assert (Hload : forall j,
             load order_schema j false
             = match OrderSchema._deserialize false j with
               | inl e => Raise (ValidationError e)
               | inr d =>
                   match OrderSchema.id d with
                   | Some _ => Raise AttributeError
                   | None => Ok (AsInstance d)
                   end
               end).
  { intros j. unfold load, make_instance, order_schema, OrderSchema.schema.
    cbn [deserialize_fields load_instance primary_key].
    destruct (OrderSchema._deserialize false j); reflexivity. }
  split; [|split; [|split]].
  - intros d v Hget.
    destruct (order_deserialize_error false d "order_date" [Msg_unknown]) as [e [He Hin]].
    + rewrite !in_app_iff. right. right.
      apply unknown_errors_intro.
      * apply dict_get_some_key. rewrite Hget. discriminate.
      * cbn. intros [Hk|[Hk|[]]]; discriminate.
    + exists e. rewrite Hload, He. split; [reflexivity | exact Hin].
  - intros d Habs.
    destruct (order_deserialize_error false d "user_id" [Msg_required]) as [e [He Hin]].
    + rewrite !in_app_iff, Habs. cbn [deserialize andb negb field_errors In]. tauto.
    + exists e. rewrite Hload, He. split; [reflexivity | exact Hin].
  - intros j x. rewrite Hload.
    destruct j as [| | | | | |items]; cbn [OrderSchema._deserialize];
      try discriminate.
    set (errs := (_ ++ _)%list).
    destruct errs as [|y rest] eqn:Herrs; [|discriminate].
    unfold errs in Herrs. clear errs.
    apply app_eq_nil in Herrs. destruct Herrs as [_ Herrs].
    apply app_eq_nil in Herrs. destruct Herrs as [Huid _].
    pose proof (field_required "user_id" _ _ Huid) as Hsome.
    cbn [OrderSchema.id].
    destruct (field_value (deserialize false false Integer_field (dict_get items "id")));
      [discriminate|].
    destruct (field_value
                (deserialize true false Integer_field (dict_get items "user_id")))
      as [n|]; [|congruence].
    intros Hx. inversion Hx. exists n. reflexivity.
  - rewrite Hload. reflexivity.
Qed.

(** ** The writes on the tables *)

Lemma fold_left_max_in (l : list Z) (a : Z) : In (fold_left Z.max l a) (a :: l).
Proof.
  revert a. induction l as [|x rest IH]; intros a; cbn [fold_left].
  - left. reflexivity.
  - destruct (IH (Z.max a x)) as [Heq|Hin].
    + rewrite <- Heq. destruct (Z.max_spec a x) as [[_ ->]|[_ ->]];
        [right; left; reflexivity | left; reflexivity].
    + right. right. exact Hin.
Qed.

Lemma fold_left_max_ge (l : list Z) (a : Z) :
  a <= fold_left Z.max l a /\ forall x, In x l -> x <= fold_left Z.max l a.
Proof.
  revert a. induction l as [|y rest IH]; intros a; cbn [fold_left].
  - split; [lia | intros x []].
  - destruct (IH (Z.max a y)) as [Ha Hrest]. split; [lia|].
    intros x [<-|Hin]; [lia | exact (Hrest x Hin)].
Qed.

Lemma next_rowid_fresh (ids : list Z) :
  (forall i, In i ids -> i < 2 ^ 63 - 1) ->
  exists id, next_rowid ids = Ok id
             /\ (forall i, In i ids -> i < id)
             /\ (ids = [] -> id = 1).
Proof.
  intros Hbound. destruct ids as [|i rest]; cbn [next_rowid].
  - exists 1. split; [reflexivity|]. split; [intros i [] | reflexivity].
  - pose proof (Hbound _ (fold_left_max_in rest i)) as Hlt.
    destruct (Z.eqb_spec (fold_left Z.max rest i) (2 ^ 63 - 1)) as [Heq|_]; [lia|].
    exists (fold_left Z.max rest i + 1). split; [reflexivity|].
    split; [|discriminate].
    destruct (fold_left_max_ge rest i) as [Hi Hrest].
    intros x [<-|Hin]; [lia|]. specialize (Hrest x Hin). lia.
Qed.

(** The rowid of an insert fits the column when the stored rowids do. *)
Lemma next_rowid_fits (ids : list Z) (id : Z) :
  (forall i, In i ids -> in_int64 i = true) ->
  next_rowid ids = Ok id ->
  in_int64 id = true.
Proof.
  intros Hfit. destruct ids as [|i rest]; cbn [next_rowid].
  - intros Heq. inversion Heq. reflexivity.
  - pose proof (Hfit _ (fold_left_max_in rest i)) as Hmax.
    apply in_int64_iff in Hmax.
    destruct (Z.eqb_spec (fold_left Z.max rest i) (2 ^ 63 - 1)) as [_|Hne];
      [discriminate|].
    intros Heq. inversion Heq. apply in_int64_range. lia.
Qed.

Lemma forallb_snoc {A : Type} (f : A -> bool) (l : list A) (x : A) :
  forallb f l = true -> f x = true -> forallb f (l ++ [x]) = true.
Proof.
  intros Hl Hx. rewrite forallb_app, Hl. cbn [forallb]. rewrite Hx. reflexivity.
Qed.

Lemma session_get_app {R : Type} (key : R -> Z) (l l' : list R) (id : Z) :
  session_get key (l ++ l') id
  = match session_get key l id with
    | Some r => Some r
    | None => session_get key l' id
    end.
Proof.
  unfold session_get. induction l as [|x rest IH]; cbn [app find]; [reflexivity|].
  destruct (key x =? id); [reflexivity | exact IH].
Qed.

Lemma NoDup_snoc {A : Type} (l : list A) (x : A) :
  NoDup l -> ~ In x l -> NoDup (l ++ [x]).
Proof.
  induction 1 as [|y rest Hy Hnd IH]; cbn [app]; intros Hx.
  - constructor; [intros [] | constructor].
  - constructor.
    + rewrite in_app_iff. intros [Hin|[Heq|[]]]; [exact (Hy Hin)|].
      apply Hx. left. symmetry. exact Heq.
    + apply IH. intros Hin. apply Hx. right. exact Hin.
Qed.

(** X18.  The insert of create_user (lines 135-136: [db.session.add] and
    [db.session.commit] on [users]), for a name and an email that no stored
    user has, on a table that keeps its primary key and UNIQUE columns and
    whose ids are below the largest rowid: it appends one user with the given
    name, address and email under an id larger than every stored id (1 in an
    empty table); the new id looks the new user up, every stored id looks up
    what it did, and the table still keeps its constraints. *)
Theorem commit_add_user_inserts (s : Store) (name address email : string) :
  users_constraints (users s) ->
  (forall u, In u (users s) -> User.id u < 2 ^ 63 - 1) ->
  (forall u, In u (users s) -> User.name u <> name /\ User.email u <> email) ->
  exists id,
    commit_add_user s name address email
    = Ok (with_users s
            (users s ++ [{| User.id := id; User.name := name;
                            User.address := address; User.email := email |}]),
          {| User.id := id; User.name := name;
             User.address := address; User.email := email |})
    /\ (forall u, In u (users s) -> User.id u < id)
    /\ (users s = [] -> id = 1)
    /\ session_get User.id
         (users s ++ [{| User.id := id; User.name := name;
                         User.address := address; User.email := email |}]) id
       = Some {| User.id := id; User.name := name;
                 User.address := address; User.email := email |}
    /\ (forall id' u, session_get User.id (users s) id' = Some u ->
          session_get User.id
            (users s ++ [{| User.id := id; User.name := name;
                            User.address := address; User.email := email |}]) id'
          = Some u)
    /\ users_constraints
         (users s ++ [{| User.id := id; User.name := name;
                         User.address := address; User.email := email |}])
    /\ users (with_users s
                (users s ++ [{| User.id := id; User.name := name;
                                User.address := address; User.email := email |}]))
       = (users s ++ [{| User.id := id; User.name := name;
                         User.address := address; User.email := email |}])%list.
Proof.
  intros [Hids [Hnames Hemails]] Hbound Hfree.
  destruct (next_rowid_fresh (map User.id (users s))) as [id [Hnext [Hlt Hone]]].
  { intros i Hin. apply in_map_iff in Hin. destruct Hin as [u [<- Hu]].
    exact (Hbound u Hu). }
  exists id.
  assert (Hno : existsb (fun u => String.eqb (User.name u) name
                                  || String.eqb (User.email u) email) (users s) = false).
  { destruct (existsb _ (users s)) eqn:Hex; [|reflexivity].
    apply existsb_exists in Hex. destruct Hex as [u [Hu Hclash]].
    destruct (Hfree u Hu) as [Hn He].
    apply orb_true_iff in Hclash. destruct Hclash as [Hc|Hc];
      apply String.eqb_eq in Hc; contradiction. }
  assert (Hltu : forall u, In u (users s) -> User.id u < id).
  { intros u Hu. apply Hlt. apply in_map. exact Hu. }
  split; [|split; [exact Hltu|split; [|split; [|split; [|split]]]]].
  - unfold commit_add_user. rewrite Hno, Hnext. reflexivity.
  - intros Hnil. apply Hone. rewrite Hnil. reflexivity.
  - rewrite session_get_app.
    rewrite (session_get_none User.id (users s) id).
    + unfold session_get. cbn [find User.id]. rewrite Z.eqb_refl. reflexivity.
    + intros u Hu. specialize (Hltu u Hu). lia.
  - intros id' u Hget. rewrite session_get_app, Hget. reflexivity.
  - unfold users_constraints. rewrite !map_app. cbn [map User.id User.name User.email].
    split; [|split]; apply NoDup_snoc; try assumption.
    + intros Hin. apply in_map_iff in Hin. destruct Hin as [u [Heq Hu]].
      specialize (Hltu u Hu). lia.
    + intros Hin. apply in_map_iff in Hin. destruct Hin as [u [Heq Hu]].
      exact (proj1 (Hfree u Hu) Heq).
    + intros Hin. apply in_map_iff in Hin. destruct Hin as [u [Heq Hu]].
      exact (proj2 (Hfree u Hu) Heq).
  - apply with_users_fits. apply forallb_snoc.
    + exact (proj1 (store_fits_parts s)).
    + cbn [User.id]. apply (next_rowid_fits (map User.id (users s))); [|exact Hnext].
      intros i Hin. apply in_map_iff in Hin. destruct Hin as [u [<- Hu]].
      exact (users_in_range s u Hu).
Qed.

Lemma ann_store_constraints : users_constraints (users ann_store).
Proof.
  repeat split; (constructor; [intros [] | constructor]).
Defined.

Lemma commit_add_user_inserts_witness :
  users_constraints (users ann_store)
  /\ (forall u, In u (users ann_store) -> User.id u < 2 ^ 63 - 1)
  /\ (forall u, In u (users ann_store) -> User.name u <> "Bob"
                                          /\ User.email u <> "bob@example.com")
  /\ commit_add_user ann_store "Bob" "2 High St" "bob@example.com"
     = Ok (with_users empty_store [ann; bob], bob).
Proof.
  assert (Hbound : forall u, In u (users ann_store) -> User.id u < 2 ^ 63 - 1).
  { intros u [Hu|[]]. rewrite <- Hu. reflexivity. }
  assert (Hfree : forall u, In u (users ann_store) ->
                            User.name u <> "Bob" /\ User.email u <> "bob@example.com").
  { intros u [Hu|[]]. rewrite <- Hu. split; discriminate. }
  split; [exact ann_store_constraints|]. split; [exact Hbound|]. split; [exact Hfree|].
  destruct (commit_add_user_inserts ann_store "Bob" "2 High St" "bob@example.com"
              ann_store_constraints Hbound Hfree) as [id _].
  reflexivity.
Defined.

(** X19.  The same insert is refused with IntegrityError exactly when a
    stored user has the name or has the email, compared character by
    character (so "ann" does not collide with "Ann"); the handler answers
    that error with 409 (lines 139-141). *)
Theorem commit_add_user_refused (s : Store) (name address email : string) :
  (commit_add_user s name address email = Raise IntegrityError
   <-> exists u, In u (users s) /\ (User.name u = name \/ User.email u = email))
  /\ commit_add_user ann_store "ann" "1 Main St" "ann@example.org"
     = Ok (with_users empty_store
             [ann; {| User.id := 2; User.name := "ann"; User.address := "1 Main St";
                      User.email := "ann@example.org" |}],
           {| User.id := 2; User.name := "ann"; User.address := "1 Main St";
              User.email := "ann@example.org" |}).
Proof.
  split; [|reflexivity].
  unfold commit_add_user.
  destruct (existsb _ (users s)) eqn:Hex.
  - split; [intros _|reflexivity].
    apply existsb_exists in Hex. destruct Hex as [u [Hu Hclash]].
    exists u. split; [exact Hu|].
    apply orb_true_iff in Hclash.
    destruct Hclash as [Hc|Hc]; apply String.eqb_eq in Hc; [left | right]; exact Hc.
  - split.
    + destruct (next_rowid (map User.id (users s))) as [id|e] eqn:Hnext;
        cbn [bind]; [discriminate|].
      intros Heq. inversion Heq; subst e. exfalso.
      unfold next_rowid in Hnext. destruct (map User.id (users s)); [discriminate|].
      destruct (_ =? _) in Hnext; discriminate.
    + intros [u [Hu Hclash]]. exfalso.
      assert (Htrue : existsb (fun u => String.eqb (User.name u) name
                                        || String.eqb (User.email u) email)
                        (users s) = true).
      { apply existsb_exists. exists u. split; [exact Hu|].
        apply orb_true_iff.
        destruct Hclash as [Hc|Hc]; [left | right]; apply String.eqb_eq; exact Hc. }
      congruence.
Qed.


